(** * Henry's SmartStock: the client-side inventory state and the adjustment form

    A shallow embedding of
      - [frontend/src/types/inventory.ts]      (the data model),
      - [frontend/src/store/slices/inventorySlice.ts] (the Redux reducers and
        the [createInventoryAdjustment] thunk),
      - [InventoryAdjustmentModal.tsx]         ([getNewStockLevel], [handleSubmit]),
    followed by the properties of the stock-synchronisation specification that
    can be settled on that code.

    Numbers.  A JavaScript [number] is an IEEE-754 double.  Quantities are
    modelled by exact rationals plus [NaN]; rounding, the two signed zeros and
    the infinities are outside the model.  Every concrete input used below is
    a small integer, on which double arithmetic is exact. *)

From Stdlib Require Import QArith Qminmax Qround Lqa Permutation Ascii String DecimalString.
From stdpp Require Import list strings.

Local Open Scope Q_scope.
Local Open Scope string_scope.
Local Open Scope list_scope.

(** ** JavaScript numbers *)

Inductive number : Type :=
| Num (q : Q)
| NaN.

Module JS.

(** [a + b] *)
Definition add (a b : number) : number :=
  match a, b with
  | Num x, Num y => Num (x + y)
  | _, _ => NaN
  end.

(** [a - b] *)
Definition sub (a b : number) : number :=
  match a, b with
  | Num x, Num y => Num (x - y)
  | _, _ => NaN
  end.

(** [Math.max(a, b)]: [NaN] as soon as one argument is [NaN]. *)
Definition Math_max (a b : number) : number :=
  match a, b with
  | Num x, Num y => Num (Qmax x y)
  | _, _ => NaN
  end.

(** Truthiness of a number: [0] and [NaN] are falsy. *)
Definition truthy (a : number) : bool :=
  match a with
  | Num x => negb (Qeq_bool x 0)
  | NaN => false
  end.

(** [a || b] on numbers. *)
Definition or (a b : number) : number :=
  if truthy a then a else b.

(** [!s] on a string: only the empty string is falsy. *)
Definition not_str (s : string) : bool :=
  match s with
  | EmptyString => true
  | String _ _ => false
  end.

(** [s || undefined] on a string. *)
Definition or_undefined (s : string) : option string :=
  if not_str s then None else Some s.

(** *** [parseFloat]

    Leading white space is skipped, then the longest prefix that is a
    decimal literal (sign, digits, fraction, exponent) is read; when there
    is none the result is [NaN].  The literal [Infinity] is not modelled. *)

Definition is_ws (c : ascii) : bool :=
  let n := nat_of_ascii c in
  ((n =? 32) || (n =? 9) || (n =? 10) || (n =? 11) || (n =? 12) || (n =? 13))%nat.

Definition digit_of (c : ascii) : option Z :=
  let n := nat_of_ascii c in
  if ((48 <=? n) && (n <=? 57))%nat then Some (Z.of_nat (n - 48)) else None.

Fixpoint skip_ws (s : string) : string :=
  match s with
  | String c r => if is_ws c then skip_ws r else s
  | EmptyString => s
  end.

(** Reads a run of digits: the value read so far, how many digits were
    read, and the rest of the string. *)
Fixpoint read_digits (acc : Z) (n : nat) (s : string) : Z * nat * string :=
  match s with
  | String c r =>
      match digit_of c with
      | Some d => read_digits (10 * acc + d) (S n) r
      | None => (acc, n, s)
      end
  | EmptyString => (acc, n, s)
  end.

(** The exponent part [e[+-]digits]; [0] when the text after the mantissa
    is not a complete exponent. *)
Definition read_exponent (s : string) : Z :=
  match s with
  | String c r =>
      if (Ascii.eqb c "e" || Ascii.eqb c "E")%bool then
        let '(neg, r') :=
          match r with
          | String "-" r' => (true, r')
          | String "+" r' => (false, r')
          | _ => (false, r)
          end in
        let '(e, n, _) := read_digits 0 0 r' in
        match n with
        | O => 0%Z
        | S _ => if neg then (- e)%Z else e
        end
      else 0%Z
  | EmptyString => 0%Z
  end.

Definition pow10 (e : Z) : Q := Qpower (inject_Z 10) e.

Definition parseFloat (s : string) : number :=
  let s0 := skip_ws s in
  let '(neg, s1) :=
    match s0 with
    | String "-" r => (true, r)
    | String "+" r => (false, r)
    | _ => (false, s0)
    end in
  let '(ip, ni, s2) := read_digits 0 0 s1 in
  let '(m, nf, s3) :=
    match s2 with
    | String "." r => read_digits ip 0 r
    | _ => (ip, O, s2)
    end in
  match ni, nf with
  | O, O => NaN
  | _, _ =>
      let v := Qred (inject_Z m * pow10 (- Z.of_nat nf) * pow10 (read_exponent s3)) in
      Num (if neg then Qred (- v) else v)
  end.

(** *** Further arithmetic used by the overview and the item card *)

(** [a * b] *)
Definition mul (a b : number) : number :=
  match a, b with
  | Num x, Num y => Num (x * y)
  | _, _ => NaN
  end.

(** [a / b].  For a zero divisor JavaScript answers [NaN] (0/0) or an
    infinity; the infinities are outside the model, and both callers below
    test that the divisor is not zero before they divide. *)
Definition div (a b : number) : number :=
  match a, b with
  | Num x, Num y => if Qeq_bool y 0 then NaN else Num (x / y)
  | _, _ => NaN
  end.

(** [Math.min(a, b)] *)
Definition Math_min (a b : number) : number :=
  match a, b with
  | Num x, Num y => Num (Qmin x y)
  | _, _ => NaN
  end.

(** [Math.round(a)]: the nearest integer, a half rounding up. *)
Definition Math_round (a : number) : number :=
  match a with
  | Num x => Num (inject_Z (Qfloor (x + (1 # 2))))
  | NaN => NaN
  end.

(** [a === b] on numbers: [NaN] equals nothing. *)
Definition strict_eq (a b : number) : bool :=
  match a, b with
  | Num x, Num y => Qeq_bool x y
  | _, _ => false
  end.

(** An array length, or any other count, as a number. *)
Definition of_nat (n : nat) : number := Num (inject_Z (Z.of_nat n)).

(** Truthiness of an optional string: [undefined] and [''] are falsy. *)
Definition truthy_str (s : option string) : bool :=
  match s with
  | Some str => negb (not_str str)
  | None => false
  end.

End JS.

(** ** The data model ([types/inventory.ts]) *)

Inductive LocationType := main_bar | rooftop | storage | kitchen.

Module Location.
Record t := mk {
  id : string;
  name : string;
  type : LocationType;
  isActive : bool
}.
End Location.

Module InventoryItem.
Record t := mk {
  id : string;
  name : string;
  category : string;
  barcode : string;
  currentStock : number;
  unitOfMeasure : string;
  location : Location.t;
  parLevel : number;
  reorderPoint : number;
  costPerUnit : number;
  supplierId : string;
  expirationDate : option string;
  createdAt : string;
  updatedAt : string
}.
End InventoryItem.

Inductive StockStatus := in_stock | low_stock | out_of_stock | overstock.

Module StockLevel.
Record t := mk {
  itemId : string;
  locationId : string;
  currentStock : number;
  parLevel : number;
  reorderPoint : number;
  lastUpdated : string;
  status : StockStatus
}.

(** The (itemId, locationId) pair a stock level belongs to. *)
Definition key (l : t) : string * string := (itemId l, locationId l).
End StockLevel.

Inductive TransactionType := sale | adjustment | receive | waste | transfer.

Module InventoryTransaction.
Record t := mk {
  id : string;
  itemId : string;
  locationId : string;
  transactionType : TransactionType;
  quantity : number;
  unitCost : option number;
  userId : string;
  userName : string;
  posTransactionId : option string;
  timestamp : string;
  notes : option string
}.
End InventoryTransaction.

Inductive AdjustmentType := add | subtract | set.

Module InventoryAdjustment.
Record t := mk {
  itemId : string;
  locationId : string;
  adjustmentType : AdjustmentType;
  quantity : number;
  reason : string;
  notes : option string
}.
End InventoryAdjustment.

Inductive FilterStatus := all | f_in_stock | f_low_stock | f_out_of_stock.

Module InventoryFilter.
Record t := mk {
  locationId : option string;
  category : option string;
  status : option FilterStatus;
  searchTerm : option string
}.
End InventoryFilter.

Inductive AlertType := a_low_stock | a_out_of_stock | expiring_soon.
Inductive Severity := low | medium | high | critical.

Module StockAlert.
Record t := mk {
  id : string;
  itemId : string;
  itemName : string;
  locationId : string;
  locationName : string;
  alertType : AlertType;
  currentStock : number;
  threshold : number;
  severity : Severity;
  createdAt : string
}.
End StockAlert.

(** [WebSocketMessage]: the [type] tag together with the [data] payload at
    the type the reducer casts it to, and the message's [timestamp]. *)
Inductive WebSocketMessage :=
| stock_update (data : StockLevel.t) (timestamp : string)
| transaction (data : InventoryTransaction.t) (timestamp : string)
| alert (data : StockAlert.t) (timestamp : string).

Record InventoryState := mkState {
  items : list InventoryItem.t;
  stockLevels : list StockLevel.t;
  locations : list Location.t;
  transactions : list InventoryTransaction.t;
  filters : InventoryFilter.t;
  isLoading : bool;
  error : option string;
  isConnected : bool;
  lastUpdated : option string
}.

(** ** Array operations used by the reducers *)

Section Arrays.
Context {A : Type}.

(** [arr.findIndex(p)]: the first index whose element satisfies [p];
    [None] stands for the [-1] that JavaScript returns when there is none. *)
Definition findIndex (p : A → bool) (arr : list A) : option nat :=
  fst <$> list_find (λ x, p x = true) arr.

(** [arr.find(p)] *)
Definition find (p : A → bool) (arr : list A) : option A :=
  snd <$> list_find (λ x, p x = true) arr.

(** [arr.unshift(x)] *)
Definition unshift (x : A) (arr : list A) : list A := x :: arr.

(** [arr.push(x)] *)
Definition push (x : A) (arr : list A) : list A := arr ++ [x].

(** [arr.slice(0, n)] *)
Definition slice0 (n : nat) (arr : list A) : list A := take n arr.
End Arrays.

(** ** The inventory slice ([store/slices/inventorySlice.ts]) *)

(** Field assignments on the state ([state.f = v] on the Immer draft). *)
Definition set_items v (s : InventoryState) :=
  mkState v (stockLevels s) (locations s) (transactions s) (filters s)
          (isLoading s) (error s) (isConnected s) (lastUpdated s).
Definition set_stockLevels v (s : InventoryState) :=
  mkState (items s) v (locations s) (transactions s) (filters s)
          (isLoading s) (error s) (isConnected s) (lastUpdated s).
Definition set_locations v (s : InventoryState) :=
  mkState (items s) (stockLevels s) v (transactions s) (filters s)
          (isLoading s) (error s) (isConnected s) (lastUpdated s).
Definition set_transactions v (s : InventoryState) :=
  mkState (items s) (stockLevels s) (locations s) v (filters s)
          (isLoading s) (error s) (isConnected s) (lastUpdated s).
Definition set_filters v (s : InventoryState) :=
  mkState (items s) (stockLevels s) (locations s) (transactions s) v
          (isLoading s) (error s) (isConnected s) (lastUpdated s).
Definition set_isLoading v (s : InventoryState) :=
  mkState (items s) (stockLevels s) (locations s) (transactions s) (filters s)
          v (error s) (isConnected s) (lastUpdated s).
Definition set_error v (s : InventoryState) :=
  mkState (items s) (stockLevels s) (locations s) (transactions s) (filters s)
          (isLoading s) v (isConnected s) (lastUpdated s).
Definition set_isConnected v (s : InventoryState) :=
  mkState (items s) (stockLevels s) (locations s) (transactions s) (filters s)
          (isLoading s) (error s) v (lastUpdated s).
Definition set_lastUpdated v (s : InventoryState) :=
  mkState (items s) (stockLevels s) (locations s) (transactions s) (filters s)
          (isLoading s) (error s) (isConnected s) v.

Definition initialState : InventoryState :=
  {| items := [];
     stockLevels := [];
     locations := [];
     transactions := [];
     filters := InventoryFilter.mk None None (Some all) None;
     isLoading := false;
     error := None;
     isConnected := false;
     lastUpdated := None |}.

(** [Partial<InventoryFilter>]: a key is either absent ([None]) or present
    with a possibly undefined value. *)
Record PartialFilter := mkPartial {
  p_locationId : option (option string);
  p_category : option (option string);
  p_status : option (option FilterStatus);
  p_searchTerm : option (option string)
}.

Definition setFilters (state : InventoryState) (payload : PartialFilter) : InventoryState :=
  let f := filters state in
  set_filters
    (InventoryFilter.mk
       (default (InventoryFilter.locationId f) (p_locationId payload))
       (default (InventoryFilter.category f) (p_category payload))
       (default (InventoryFilter.status f) (p_status payload))
       (default (InventoryFilter.searchTerm f) (p_searchTerm payload)))
    state.

Definition clearFilters (state : InventoryState) : InventoryState :=
  set_filters (filters initialState) state.

Definition setConnectionStatus (state : InventoryState) (payload : bool) : InventoryState :=
  set_isConnected payload state.

(** [now] is the value of [new Date().toISOString()] when the reducer runs. *)
Definition updateStockLevel (now : string) (state : InventoryState)
    (payload : StockLevel.t) : InventoryState :=
  let index :=
    findIndex (λ level,
        String.eqb (StockLevel.itemId level) (StockLevel.itemId payload)
        && String.eqb (StockLevel.locationId level) (StockLevel.locationId payload))
      (stockLevels state) in
  let state :=
    match index with
    | Some index => set_stockLevels (<[index := payload]> (stockLevels state)) state
    | None => set_stockLevels (push payload (stockLevels state)) state
    end in
  set_lastUpdated (Some now) state.

Definition addTransaction (state : InventoryState)
    (payload : InventoryTransaction.t) : InventoryState :=
  let state := set_transactions (unshift payload (transactions state)) state in
  (* Keep only the latest 100 transactions in memory *)
  if (100 <? length (transactions state))%nat
  then set_transactions (slice0 100 (transactions state)) state
  else state.

Definition handleWebSocketMessage (now : string) (state : InventoryState)
    (payload : WebSocketMessage) : InventoryState :=
  match payload with
  | stock_update stockUpdate _ =>
      let stockIndex :=
        findIndex (λ level,
            String.eqb (StockLevel.itemId level) (StockLevel.itemId stockUpdate)
            && String.eqb (StockLevel.locationId level) (StockLevel.locationId stockUpdate))
          (stockLevels state) in
      let state :=
        match stockIndex with
        | Some stockIndex =>
            set_stockLevels (<[stockIndex := stockUpdate]> (stockLevels state)) state
        | None => set_stockLevels (push stockUpdate (stockLevels state)) state
        end in
      set_lastUpdated (Some now) state
  | transaction tx _ =>
      let state := set_transactions (unshift tx (transactions state)) state in
      if (100 <? length (transactions state))%nat
      then set_transactions (slice0 100 (transactions state)) state
      else state
  | alert _ _ =>
      (* Handle alerts if needed *)
      state
  end.

Definition clearError (state : InventoryState) : InventoryState :=
  set_error None state.

(** *** The extra reducers of the async thunks *)

Definition fetchInventoryItems_pending (state : InventoryState) : InventoryState :=
  set_error None (set_isLoading true state).

Definition fetchInventoryItems_fulfilled (now : string) (state : InventoryState)
    (payload : list InventoryItem.t) : InventoryState :=
  set_lastUpdated (Some now) (set_items payload (set_isLoading false state)).

Definition fetchInventoryItems_rejected (state : InventoryState)
    (payload : string) : InventoryState :=
  set_error (Some payload) (set_isLoading false state).

Definition fetchStockLevels_pending (state : InventoryState) : InventoryState :=
  set_error None (set_isLoading true state).

Definition fetchStockLevels_fulfilled (now : string) (state : InventoryState)
    (payload : list StockLevel.t) : InventoryState :=
  set_lastUpdated (Some now) (set_stockLevels payload (set_isLoading false state)).

Definition fetchStockLevels_rejected (state : InventoryState)
    (payload : string) : InventoryState :=
  set_error (Some payload) (set_isLoading false state).

Definition fetchLocations_fulfilled (state : InventoryState)
    (payload : list Location.t) : InventoryState :=
  set_locations payload state.

Definition fetchLocations_rejected (state : InventoryState)
    (payload : string) : InventoryState :=
  set_error (Some payload) state.

Definition fetchTransactions_fulfilled (state : InventoryState)
    (payload : list InventoryTransaction.t) : InventoryState :=
  set_transactions payload state.

Definition fetchTransactions_rejected (state : InventoryState)
    (payload : string) : InventoryState :=
  set_error (Some payload) state.

Definition createInventoryAdjustment_pending (state : InventoryState) : InventoryState :=
  set_error None (set_isLoading true state).

Definition createInventoryAdjustment_fulfilled (state : InventoryState)
    (payload : InventoryTransaction.t) : InventoryState :=
  let state := set_isLoading false state in
  let state := set_transactions (unshift payload (transactions state)) state in
  if (100 <? length (transactions state))%nat
  then set_transactions (slice0 100 (transactions state)) state
  else state.

Definition createInventoryAdjustment_rejected (state : InventoryState)
    (payload : string) : InventoryState :=
  set_error (Some payload) (set_isLoading false state).

(** *** The [createInventoryAdjustment] thunk

    [inventoryAPI.createAdjustment] posts the adjustment to the server, which
    is not part of the client: its answer is an input of the model.  A failed
    request carries [error.response?.data?.message], possibly undefined. *)
Inductive ApiResponse :=
| Resolved (data : InventoryTransaction.t)
| Failed (message : option string).

(** [message || 'Failed to create adjustment'] *)
Definition rejectValue (message : option string) : string :=
  match message with
  | Some m => if JS.not_str m then "Failed to create adjustment" else m
  | None => "Failed to create adjustment"
  end.

(** Dispatching the thunk: [pending], the request, then [fulfilled] or
    [rejected]. *)
Definition createInventoryAdjustment
    (api : InventoryAdjustment.t → ApiResponse)
    (state : InventoryState) (adjustment : InventoryAdjustment.t) : InventoryState :=
  let state := createInventoryAdjustment_pending state in
  match api adjustment with
  | Resolved tx => createInventoryAdjustment_fulfilled state tx
  | Failed message => createInventoryAdjustment_rejected state (rejectValue message)
  end.

(** ** The adjustment form ([InventoryAdjustmentModal.tsx]) *)

(** The component's local state (its [useState] cells). *)
Record FormState := mkForm {
  adjustmentType : AdjustmentType;
  quantity : string;
  reason : string;
  notes : string;
  selectedLocationId : string
}.

(** [stockLevels.filter(level => level.itemId === itemId)] *)
Definition itemStockLevels (itemId : string) (levels : list StockLevel.t)
  : list StockLevel.t :=
  filter (λ level, String.eqb (StockLevel.itemId level) itemId = true) levels.

(** [itemStockLevels.find(level => level.locationId === selectedLocationId)] *)
Definition selectedStockLevel (itemId : string) (levels : list StockLevel.t)
    (form : FormState) : option StockLevel.t :=
  find (λ level, String.eqb (StockLevel.locationId level) (selectedLocationId form))
       (itemStockLevels itemId levels).

(** The preview computation.  [selectedStockLevel?.currentStock || 0] is [0]
    when there is no selected level. *)
Definition getNewStockLevel (selectedStockLevel : option StockLevel.t)
    (form : FormState) : number :=
  match selectedStockLevel with
  | None => Num 0
  | Some level =>
      if JS.not_str (quantity form) then JS.or (StockLevel.currentStock level) (Num 0)
      else
        let currentStock := StockLevel.currentStock level in
        let adjustmentAmount := JS.parseFloat (quantity form) in
        match adjustmentType form with
        | add => JS.add currentStock adjustmentAmount
        | subtract => JS.Math_max (Num 0) (JS.sub currentStock adjustmentAmount)
        | set => adjustmentAmount
        end
  end.

(** What [handleSubmit] did: the adjustment it dispatched (if any), the store
    afterwards, and whether [onClose] was called. *)
Record Submitted := mkSubmitted {
  dispatched : option InventoryAdjustment.t;
  store : InventoryState;
  closed : bool
}.

Definition handleSubmit (api : InventoryAdjustment.t → ApiResponse)
    (itemId : string) (form : FormState) (state : InventoryState) : Submitted :=
  if JS.not_str (selectedLocationId form) || JS.not_str (quantity form)
     || JS.not_str (reason form)
  then mkSubmitted None state false
  else
    let adjustment :=
      InventoryAdjustment.mk itemId (selectedLocationId form) (adjustmentType form)
        (JS.parseFloat (quantity form)) (reason form) (JS.or_undefined (notes form)) in
    let state' := createInventoryAdjustment api state adjustment in
    match api adjustment with
    | Resolved _ => mkSubmitted (Some adjustment) state' true
    | Failed _ => mkSubmitted (Some adjustment) state' false
    end.

(** The quantity field, [<input type="number" step="0.01" min="0" required>]:
    the constraints the browser checks before it lets the form submit. *)
Definition quantity_min : Q := 0.
Definition quantity_step : Q := 1 # 100.

Definition quantityInputValid (quantity : string) : bool :=
  negb (JS.not_str quantity)
  && match JS.parseFloat quantity with
     | Num q =>
         Qle_bool quantity_min q
         && (Qden (Qred ((q - quantity_min) / quantity_step)) =? 1)%positive
     | NaN => false
     end.

(** ** Applying a series of adjustments to one stock level

    The stock level of one (itemId, locationId) pair, carried through a list
    of proposed adjustments: each step stores what [getNewStockLevel]
    computes from the current level. *)
Definition with_currentStock (level : StockLevel.t) (n : number) : StockLevel.t :=
  StockLevel.mk (StockLevel.itemId level) (StockLevel.locationId level) n
    (StockLevel.parLevel level) (StockLevel.reorderPoint level)
    (StockLevel.lastUpdated level) (StockLevel.status level).

Definition applyAdjustment (level : StockLevel.t) (form : FormState) : StockLevel.t :=
  with_currentStock level (getNewStockLevel (Some level) form).

Definition applyAdjustments (level : StockLevel.t) (forms : list FormState)
  : StockLevel.t :=
  foldl applyAdjustment level forms.

(** The amount a form proposes, and whether the form is an ADD or a SUBTRACT
    of a number. *)
Definition amount (form : FormState) : Q :=
  match JS.parseFloat (quantity form) with
  | Num a => a
  | NaN => 0
  end.

Definition isDelta (form : FormState) : bool :=
  match adjustmentType form, JS.parseFloat (quantity form) with
  | (add | subtract), Num _ => true
  | _, _ => false
  end.

(** The signed amount of a proposed ADD or SUBTRACT, and their sum. *)
Definition signedAmount (form : FormState) : Q :=
  match adjustmentType form with
  | add => amount form
  | subtract => - amount form
  | set => 0
  end.

Definition sumSigned (forms : list FormState) : Q :=
  foldr (λ form acc, signedAmount form + acc) 0 forms.

(** No SUBTRACT of the series asks for more than the quantity it meets,
    starting from quantity [q]. *)
Fixpoint neverExceeds (q : Q) (forms : list FormState) : bool :=
  match forms with
  | [] => true
  | form :: rest =>
      match adjustmentType form with
      | subtract => Qle_bool (amount form) q
      | _ => true
      end
      && neverExceeds (q + signedAmount form) rest
  end.

(** ** Operations that insert a transaction into the client state *)

Inductive Insertion :=
| ByAddTransaction (t : InventoryTransaction.t)
| ByWebSocket (t : InventoryTransaction.t) (timestamp : string)
| ByAdjustment (t : InventoryTransaction.t).

Definition inserted (op : Insertion) : InventoryTransaction.t :=
  match op with
  | ByAddTransaction t | ByWebSocket t _ | ByAdjustment t => t
  end.

(** One insertion: the [addTransaction] action, a ['transaction'] message, or
    the [fulfilled] action of [createInventoryAdjustment]. *)
Definition insertion_step (now : string) (state : InventoryState) (op : Insertion)
  : InventoryState :=
  match op with
  | ByAddTransaction t => addTransaction state t
  | ByWebSocket t ts => handleWebSocketMessage now state (transaction t ts)
  | ByAdjustment t => createInventoryAdjustment_fulfilled state t
  end.

Definition insertions (now : string) (state : InventoryState) (ops : list Insertion)
  : InventoryState :=
  foldl (insertion_step now) state ops.

(** ** Looking a stock level up by its pair *)

(** [level.itemId === k.1 && level.locationId === k.2], the test of the
    reducers' [findIndex] calls. *)
Definition hasKey (k : string * string) (level : StockLevel.t) : bool :=
  String.eqb (StockLevel.itemId level) k.1
  && String.eqb (StockLevel.locationId level) k.2.

(** The stock level the client holds for a pair: the first entry with that
    pair, which is the entry [findIndex] points at. *)
Definition stockLevelFor (k : string * string) (levels : list StockLevel.t)
  : option StockLevel.t :=
  find (hasKey k) levels.

(** The replace-or-append step that [updateStockLevel] and the
    ['stock_update'] case of [handleWebSocketMessage] both perform (see
    [updateStockLevel_stockLevels] and [ws_stock_update_stockLevels]). *)
Definition upsert (levels : list StockLevel.t) (p : StockLevel.t)
  : list StockLevel.t :=
  match findIndex (hasKey (StockLevel.key p)) levels with
  | Some index => <[index := p]> levels
  | None => levels ++ [p]
  end.

(** ** Sample data *)

Definition sampleTransaction (n : nat) : InventoryTransaction.t :=
  InventoryTransaction.mk
    ("tx-" ++ NilEmpty.string_of_uint (Nat.to_uint n))
    "vodka" "main-bar" adjustment (Num 1) None "u1" "Henry" None
    "2024-01-01T00:00:00.000Z" None.

Definition sampleLevel (itemId locationId : string) (q : Q) : StockLevel.t :=
  StockLevel.mk itemId locationId (Num q) (Num 10) (Num 3)
    "2024-01-01T00:00:00.000Z" in_stock.

Definition sampleAdjustment (ty : AdjustmentType) (q : Q) : InventoryAdjustment.t :=
  InventoryAdjustment.mk "vodka" "main-bar" ty (Num q) "physical_count" None.

Definition sampleForm (ty : AdjustmentType) (quantity : string) : FormState :=
  mkForm ty quantity "physical_count" "" "main-bar".

(** ** The slice as one reducer

    [createSlice] turns the case reducers above into one reducer that picks
    the case by the action's type. *)
Inductive Action :=
| SetFilters (payload : PartialFilter)
| ClearFilters
| SetConnectionStatus (payload : bool)
| UpdateStockLevel (payload : StockLevel.t)
| AddTransaction (payload : InventoryTransaction.t)
| HandleWebSocketMessage (payload : WebSocketMessage)
| ClearError
| FetchInventoryItemsPending
| FetchInventoryItemsFulfilled (payload : list InventoryItem.t)
| FetchInventoryItemsRejected (payload : string)
| FetchStockLevelsPending
| FetchStockLevelsFulfilled (payload : list StockLevel.t)
| FetchStockLevelsRejected (payload : string)
| FetchLocationsFulfilled (payload : list Location.t)
| FetchLocationsRejected (payload : string)
| FetchTransactionsFulfilled (payload : list InventoryTransaction.t)
| FetchTransactionsRejected (payload : string)
| CreateAdjustmentPending
| CreateAdjustmentFulfilled (payload : InventoryTransaction.t)
| CreateAdjustmentRejected (payload : string).

Definition inventoryReducer (now : string) (state : InventoryState) (action : Action)
  : InventoryState :=
  match action with
  | SetFilters p => setFilters state p
  | ClearFilters => clearFilters state
  | SetConnectionStatus b => setConnectionStatus state b
  | UpdateStockLevel p => updateStockLevel now state p
  | AddTransaction t => addTransaction state t
  | HandleWebSocketMessage m => handleWebSocketMessage now state m
  | ClearError => clearError state
  | FetchInventoryItemsPending => fetchInventoryItems_pending state
  | FetchInventoryItemsFulfilled p => fetchInventoryItems_fulfilled now state p
  | FetchInventoryItemsRejected p => fetchInventoryItems_rejected state p
  | FetchStockLevelsPending => fetchStockLevels_pending state
  | FetchStockLevelsFulfilled p => fetchStockLevels_fulfilled now state p
  | FetchStockLevelsRejected p => fetchStockLevels_rejected state p
  | FetchLocationsFulfilled p => fetchLocations_fulfilled state p
  | FetchLocationsRejected p => fetchLocations_rejected state p
  | FetchTransactionsFulfilled p => fetchTransactions_fulfilled state p
  | FetchTransactionsRejected p => fetchTransactions_rejected state p
  | CreateAdjustmentPending => createInventoryAdjustment_pending state
  | CreateAdjustmentFulfilled p => createInventoryAdjustment_fulfilled state p
  | CreateAdjustmentRejected p => createInventoryAdjustment_rejected state p
  end.

(** A run of dispatched actions, each with the time at which it is reduced. *)
Definition dispatchAll (state : InventoryState) (log : list (string * Action))
  : InventoryState :=
  foldl (λ st entry, inventoryReducer entry.1 st entry.2) state log.

(** ** The inventory grid ([InventoryGrid.tsx]) *)

Definition getStockLevelForItem (stockLevels : list StockLevel.t)
    (itemId locationId : string) : option StockLevel.t :=
  find (λ level, String.eqb (StockLevel.itemId level) itemId
                 && String.eqb (StockLevel.locationId level) locationId)
       stockLevels.

(** ** More of the adjustment form *)

(** [transactions.filter(t => t.itemId === itemId).slice(0, 10)] *)
Definition itemTransactions (itemId : string) (txs : list InventoryTransaction.t)
  : list InventoryTransaction.t :=
  slice0 10 (filter (λ t, String.eqb (InventoryTransaction.itemId t) itemId = true) txs).

(** The submit button's [disabled={isLoading || !quantity || !reason}]. *)
Definition submitDisabled (state : InventoryState) (form : FormState) : bool :=
  isLoading state || JS.not_str (quantity form) || JS.not_str (reason form).

(** ** The filter panel ([InventoryFilters.tsx]) and the page's handlers *)

(** Truthiness of
    [filters.locationId || filters.category || filters.status !== 'all'
     || filters.searchTerm]. *)
Definition hasActiveFilters (filters : InventoryFilter.t) : bool :=
  JS.truthy_str (InventoryFilter.locationId filters)
  || JS.truthy_str (InventoryFilter.category filters)
  || match InventoryFilter.status filters with
     | Some all => false
     | _ => true
     end
  || JS.truthy_str (InventoryFilter.searchTerm filters).

Definition noPartial : PartialFilter := mkPartial None None None None.

(** The page's [handleFilterChange] dispatches [setFilters]; each handler of
    the panel calls it with the object shown. *)
Definition handleFilterChange (state : InventoryState) (newFilters : PartialFilter)
  : InventoryState :=
  setFilters state newFilters.

(** [onFilterChange({ locationId: value || undefined })] *)
Definition handleLocationChange (state : InventoryState) (value : string)
  : InventoryState :=
  handleFilterChange state (mkPartial (Some (JS.or_undefined value)) None None None).

(** [onFilterChange({ category: value || undefined })] *)
Definition handleCategoryChange (state : InventoryState) (value : string)
  : InventoryState :=
  handleFilterChange state (mkPartial None (Some (JS.or_undefined value)) None None).

(** [onFilterChange({ status: value })] *)
Definition handleStatusChange (state : InventoryState) (value : FilterStatus)
  : InventoryState :=
  handleFilterChange state (mkPartial None None (Some (Some value)) None).

(** [onFilterChange({ searchTerm: value || undefined })], the call the
    debounce timer of [handleSearchChange] makes. *)
Definition handleSearchChange (state : InventoryState) (value : string)
  : InventoryState :=
  handleFilterChange state (mkPartial None None None (Some (JS.or_undefined value))).

(** The [x] buttons of the active-filter tags. *)
Definition removeLocationTag (state : InventoryState) : InventoryState :=
  handleFilterChange state (mkPartial (Some None) None None None).
Definition removeCategoryTag (state : InventoryState) : InventoryState :=
  handleFilterChange state (mkPartial None (Some None) None None).
Definition removeStatusTag (state : InventoryState) : InventoryState :=
  handleFilterChange state (mkPartial None None (Some (Some all)) None).
Definition removeSearchTag (state : InventoryState) : InventoryState :=
  handleFilterChange state (mkPartial None None None (Some None)).

(** The page's [handleClearFilters]. *)
Definition handleClearFilters (state : InventoryState) : InventoryState :=
  clearFilters state.

(** What the selects show: [filters.locationId || ''],
    [filters.category || ''] and [filters.status || 'all']. *)
Definition shownLocation (filters : InventoryFilter.t) : string :=
  match InventoryFilter.locationId filters with
  | Some l => l
  | None => ""
  end.
Definition shownCategory (filters : InventoryFilter.t) : string :=
  match InventoryFilter.category filters with
  | Some c => c
  | None => ""
  end.
Definition shownStatus (filters : InventoryFilter.t) : FilterStatus :=
  match InventoryFilter.status filters with
  | Some st => st
  | None => all
  end.

(** ** The request parameters of [inventoryAPI.getInventoryItems] *)

Definition FilterStatus_toString (st : FilterStatus) : string :=
  match st with
  | all => "all"
  | f_in_stock => "in_stock"
  | f_low_stock => "low_stock"
  | f_out_of_stock => "out_of_stock"
  end.

(** The pairs appended to the [URLSearchParams], in order. *)
Definition getInventoryItems_params (filters : option InventoryFilter.t)
  : list (string * string) :=
  let params := [] in
  let params :=
    match filters ≫= InventoryFilter.locationId with
    | Some l => if JS.not_str l then params else params ++ [("location_id", l)]
    | None => params
    end in
  let params :=
    match filters ≫= InventoryFilter.category with
    | Some c => if JS.not_str c then params else params ++ [("category", c)]
    | None => params
    end in
  let params :=
    match filters ≫= InventoryFilter.status with
    | Some all => params
    | Some st => params ++ [("status", FilterStatus_toString st)]
    | None => params
    end in
  let params :=
    match filters ≫= InventoryFilter.searchTerm with
    | Some t => if JS.not_str t then params else params ++ [("search", t)]
    | None => params
    end in
  params.

(** ** The overview ([InventoryOverview.tsx]) *)

#[global] Instance StockStatus_eq_dec : EqDecision StockStatus.
Proof. solve_decision. Defined.

Module StockStats.
Record t := mk {
  totalItems : nat;
  inStock : nat;
  lowStock : nat;
  outOfStock : nat;
  overstock : nat;
  totalValue : number;
  inStockPercentage : number;
  lowStockPercentage : number
}.
End StockStats.

Definition countStatus (st : StockStatus) (levels : list StockLevel.t) : nat :=
  length (filter (λ level, StockLevel.status level = st) levels).

Definition getStockStats (stockLevels : list StockLevel.t)
    (selectedLocationId : option string) : StockStats.t :=
  let filteredLevels :=
    match selectedLocationId with
    | Some id =>
        if JS.not_str id then stockLevels
        else filter (λ level, String.eqb (StockLevel.locationId level) id = true)
               stockLevels
    | None => stockLevels
    end in
  let totalItems := length filteredLevels in
  let inStock := countStatus in_stock filteredLevels in
  let lowStock := countStatus low_stock filteredLevels in
  let outOfStock := countStatus out_of_stock filteredLevels in
  let overstock := countStatus overstock filteredLevels in
  let totalValue :=
    foldl (λ sum level,
        (* Placeholder cost *)
        JS.add sum (JS.mul (StockLevel.currentStock level) (Num 10)))
      (Num 0) filteredLevels in
  StockStats.mk totalItems inStock lowStock outOfStock overstock totalValue
    (if (0 <? totalItems)%nat
     then JS.Math_round (JS.mul (JS.div (JS.of_nat inStock) (JS.of_nat totalItems)) (Num 100))
     else Num 0)
    (if (0 <? totalItems)%nat
     then JS.Math_round (JS.mul (JS.div (JS.of_nat lowStock) (JS.of_nat totalItems)) (Num 100))
     else Num 0).

(** ** The item card ([InventoryItemCard.tsx]) *)

Definition getStockPercentage (stockLevel : option StockLevel.t) : number :=
  match stockLevel with
  | None => Num 0
  | Some level =>
      if JS.strict_eq (StockLevel.parLevel level) (Num 0) then Num 0
      else
        JS.Math_min
          (JS.mul (JS.div (StockLevel.currentStock level) (StockLevel.parLevel level))
                  (Num 100))
          (Num 100)
  end.

(** ** Whole quantities

    On whole numbers of magnitude up to [Number.MAX_SAFE_INTEGER] = 2^53 - 1
    double arithmetic is exact: a sum or difference of two such numbers that
    is again such a number is computed without rounding, and [parseFloat]
    reads a literal denoting such a number exactly. *)
Definition MAX_SAFE_INTEGER : Q := inject_Z (2 ^ 53 - 1).

Definition isSafeInteger (x : Q) : bool :=
  (Qden (Qred x) =? 1)%positive
  && Qle_bool (- MAX_SAFE_INTEGER) x && Qle_bool x MAX_SAFE_INTEGER.

(** The starting quantity, every amount and every quantity met on the way
    through the series is a safe integer. *)
Fixpoint wholeSeries (q : Q) (forms : list FormState) : bool :=
  isSafeInteger q
  && match forms with
     | [] => true
     | form :: rest =>
         isSafeInteger (amount form) && wholeSeries (q + signedAmount form) rest
     end.

(** ** The transaction an action inserts, if it inserts one *)
Definition insertedBy (action : Action) : option InventoryTransaction.t :=
  match action with
  | AddTransaction t
  | HandleWebSocketMessage (transaction t _)
  | CreateAdjustmentFulfilled t => Some t
  | _ => None
  end.

(** The transactions a run of actions inserts, latest first. *)
Definition insertedIn (log : list (string * Action)) : list InventoryTransaction.t :=
  reverse (omap (λ entry, insertedBy entry.2) log).

(** ** Whether the form is rendered at all

    [const item = items.find(i => i.id === itemId)]; without an item the
    component returns the 'Item not found' panel, which has no form and no
    submit button. *)
Definition findItem (itemId : string) (items : list InventoryItem.t)
  : option InventoryItem.t :=
  find (λ i, String.eqb (InventoryItem.id i) itemId) items.

(** The submit button as rendered: [None] when there is no button, otherwise
    the value of its [disabled] attribute. *)
Definition submitButton (itemId : string) (state : InventoryState) (form : FormState)
  : option bool :=
  match findItem itemId (items state) with
  | None => None
  | Some _ => Some (submitDisabled state form)
  end.

Definition sampleItem (id : string) : InventoryItem.t :=
  InventoryItem.mk id "Vodka" "spirits" "0001" (Num 10) "bottle"
    (Location.mk "main-bar" "Main Bar" main_bar true)
    (Num 10) (Num 3) (Num 20) "s1" None
    "2024-01-01T00:00:00.000Z" "2024-01-01T00:00:00.000Z".

(** * Properties *)

(** ** [parseFloat] on sample inputs *)

Example parseFloat_5 : JS.parseFloat "5" = Num 5.
Proof. reflexivity. Qed.

Example parseFloat_2_50 : JS.parseFloat " 2.50" = Num (5 # 2).
Proof. reflexivity. Qed.

Example parseFloat_neg : JS.parseFloat "-0.01kg" = Num (-1 # 100).
Proof. reflexivity. Qed.

Example parseFloat_exp : JS.parseFloat "12e-1" = Num (6 # 5).
Proof. reflexivity. Qed.

Example parseFloat_dot : JS.parseFloat "." = NaN.
Proof. reflexivity. Qed.

Example parseFloat_junk : JS.parseFloat "abc" = NaN.
Proof. reflexivity. Qed.

Example parseFloat_empty : JS.parseFloat "" = NaN.
Proof. reflexivity. Qed.

(** ** The transaction list *)

Section TransactionList.
Implicit Types (s : InventoryState) (t : InventoryTransaction.t).

(** [unshift] followed by the conditional [slice(0, 100)] keeps the first
    100 entries of the extended list. *)
Lemma unshift_cap {A} (x : A) (l : list A) :
  (if (100 <? length (unshift x l))%nat then slice0 100 (unshift x l) else unshift x l)
  = take 100 (x :: l).
Proof.
  unfold unshift, slice0.
  destruct (Nat.ltb_spec 100 (length (x :: l))) as [Hlt | Hle]; [done |].
  by rewrite take_ge.
Qed.

Lemma addTransaction_transactions s t :
  transactions (addTransaction s t) = take 100 (t :: transactions s).
Proof.
  unfold addTransaction. cbn [transactions set_transactions].
  rewrite <- (unshift_cap t (transactions s)).
  destruct (100 <? length (unshift t (transactions s)))%nat; reflexivity.
Qed.

Lemma ws_transaction_transactions now s t ts :
  transactions (handleWebSocketMessage now s (transaction t ts))
  = take 100 (t :: transactions s).
Proof.
  unfold handleWebSocketMessage. cbn [transactions set_transactions].
  rewrite <- (unshift_cap t (transactions s)).
  destruct (100 <? length (unshift t (transactions s)))%nat; reflexivity.
Qed.

Lemma fulfilled_transactions s t :
  transactions (createInventoryAdjustment_fulfilled s t)
  = take 100 (t :: transactions s).
Proof.
  unfold createInventoryAdjustment_fulfilled.
  cbn [transactions set_transactions set_isLoading].
  rewrite <- (unshift_cap t (transactions s)).
  destruct (100 <? length (unshift t (transactions s)))%nat; reflexivity.
Qed.

Lemma fulfilled_stockLevels s t :
  stockLevels (createInventoryAdjustment_fulfilled s t) = stockLevels s.
Proof.
  unfold createInventoryAdjustment_fulfilled.
  cbn [transactions set_transactions set_isLoading].
  destruct (100 <? length (unshift t (transactions s)))%nat; reflexivity.
Qed.
End TransactionList.

(** ** Insertions: position, cap, and what happens to older entries *)

Section Insertions.
Implicit Types (s : InventoryState) (t : InventoryTransaction.t).

Lemma insertion_step_transactions now s op :
  transactions (insertion_step now s op) = take 100 (inserted op :: transactions s).
Proof.
  destruct op; cbn [insertion_step inserted];
    auto using addTransaction_transactions, ws_transaction_transactions,
      fulfilled_transactions.
Qed.

Lemma take_cons_take {A} n (x : A) (l : list A) :
  take (S n) (x :: take (S n) l) = take (S n) (x :: l).
Proof.
  cbn [take]. f_equal. rewrite take_take. f_equal. lia.
Qed.

(** After a non-empty run of insertions the list holds the first 100
    entries of: the new transactions, latest first, then the old ones. *)
Lemma insertions_transactions now ops s :
  ops ≠ [] →
  transactions (insertions now s ops)
  = take 100 (reverse (inserted <$> ops) ++ transactions s).
Proof.
  unfold insertions.
  induction ops as [| op ops IH] using rev_ind; [done | intros _].
  rewrite foldl_app, fmap_app, reverse_app. cbn [foldl fmap list_fmap].
  rewrite insertion_step_transactions.
  destruct ops as [| op' ops']; [done |].
  rewrite IH by done. apply take_cons_take.
Qed.
End Insertions.

(** ** C10: the new transaction is first and the list is capped at 100 *)

(** C10.  After [addTransaction], a ['transaction'] WebSocket message or a
    fulfilled [createInventoryAdjustment], the inserted transaction is at
    position 0, the list has at most 100 entries, and it consists of the
    first 100 entries of the extended list: whatever lay beyond is dropped. *)
Theorem C10_inserted_first_and_capped now s t ts :
  let P := λ s',
    transactions s' !! 0%nat = Some t
    ∧ (length (transactions s') ≤ 100)%nat
    ∧ transactions s' = take 100 (t :: transactions s) in
  P (addTransaction s t)
  ∧ P (handleWebSocketMessage now s (transaction t ts))
  ∧ P (createInventoryAdjustment_fulfilled s t).
Proof.
  intros P.
  assert (HP : ∀ s', transactions s' = take 100 (t :: transactions s) → P s').
  { intros s' Hs'. unfold P. rewrite Hs'. split_and!; [done | | done].
    rewrite length_take. lia. }
  split_and!; apply HP.
  - apply addTransaction_transactions.
  - apply ws_transaction_transactions.
  - apply fulfilled_transactions.
Qed.

(** ** C9: what happens to transactions already in the list *)

(** C9 as stated fails: with 100 transactions in the list, one more
    [addTransaction] discards the oldest one. *)
Lemma C9_oldest_discarded :
  let s := set_transactions (sampleTransaction <$> seq 0 100) initialState in
  let s' := addTransaction s (sampleTransaction 100) in
  sampleTransaction 99 ∈ transactions s
  ∧ sampleTransaction 99 ∉ transactions s'.
Proof.
  cbn zeta. split.
  - apply list_elem_of_lookup. exists 99%nat. reflexivity.
  - intros Hin.
    apply (list_elem_of_fmap_2 InventoryTransaction.id) in Hin.
    revert Hin. apply (bool_decide_unpack _). vm_compute. reflexivity.
Qed.

(** ** C3: resubmitting an adjustment *)

(** C3 as stated fails: the same adjustment submitted twice, the server
    answering both times with the same transaction, leaves two entries for
    it in the transaction list. *)
Lemma C3_resubmission_recorded_twice :
  let adj := sampleAdjustment add 5 in
  let api := λ _ : InventoryAdjustment.t, Resolved (sampleTransaction 1) in
  let s1 := createInventoryAdjustment api initialState adj in
  let s2 := createInventoryAdjustment api s1 adj in
  transactions s1 = [sampleTransaction 1]
  ∧ transactions s2 = [sampleTransaction 1; sampleTransaction 1].
Proof. split; reflexivity. Qed.

(** C3, amended.  The client keeps no idempotency key and detects no
    duplicates: every fulfilled submission prepends the transaction the
    server returned, so a resubmission answered with the same transaction
    adds a second entry for it (within the cap of 100).  A fulfilled
    submission does not touch the stock levels. *)
Theorem C3_each_fulfilled_submission_prepends api s adj tx :
  api adj = Resolved tx →
  let s1 := createInventoryAdjustment api s adj in
  let s2 := createInventoryAdjustment api s1 adj in
  transactions s1 = take 100 (tx :: transactions s)
  ∧ transactions s2 = take 100 (tx :: tx :: transactions s)
  ∧ stockLevels s2 = stockLevels s.
Proof.
  intros Hapi. cbn zeta. unfold createInventoryAdjustment. rewrite Hapi.
  rewrite !fulfilled_transactions, !fulfilled_stockLevels.
  cbn [createInventoryAdjustment_pending set_error set_isLoading transactions stockLevels].
  rewrite !fulfilled_transactions.
  cbn [createInventoryAdjustment_pending set_error set_isLoading transactions stockLevels].
  split_and!; [done | apply (take_cons_take 99) |].
  by rewrite fulfilled_stockLevels.
Qed.

Lemma C3_each_fulfilled_submission_prepends_witness :
  let adj := sampleAdjustment subtract 3 in
  let api := λ _ : InventoryAdjustment.t, Resolved (sampleTransaction 7) in
  let s1 := createInventoryAdjustment api initialState adj in
  let s2 := createInventoryAdjustment api s1 adj in
  api adj = Resolved (sampleTransaction 7)
  ∧ transactions s1 = take 100 (sampleTransaction 7 :: transactions initialState)
  ∧ transactions s2
    = take 100 (sampleTransaction 7 :: sampleTransaction 7 :: transactions initialState)
  ∧ stockLevels s2 = stockLevels initialState.
Proof.
  cbn zeta. split; [reflexivity |].
  apply (C3_each_fulfilled_submission_prepends
           (λ _, Resolved (sampleTransaction 7)) initialState
           (sampleAdjustment subtract 3) (sampleTransaction 7)).
  reflexivity.
Defined.

(** ** The stock-level collection *)

Section StockLevels.
Implicit Types (s : InventoryState) (p level : StockLevel.t)
  (levels : list StockLevel.t) (form : FormState).

Lemma hasKey_spec k level : hasKey k level = true ↔ StockLevel.key level = k.
Proof.
  unfold hasKey, StockLevel.key. destruct k as [i l]. cbn [fst snd].
  rewrite andb_true_iff, !String.eqb_eq. split.
  - by intros [-> ->].
  - by intros [= -> ->].
Qed.

Lemma findIndex_Some {A} (q : A → bool) (l : list A) i :
  findIndex q l = Some i ↔
  ∃ x, l !! i = Some x ∧ q x = true
       ∧ ∀ j y, l !! j = Some y → (j < i)%nat → q y ≠ true.
Proof.
  unfold findIndex. rewrite fmap_Some. split.
  - intros [[i' x] [H%list_find_Some ->]]. exists x. apply H.
  - intros [x H]. exists (i, x). split; [| done]. by apply list_find_Some.
Qed.

Lemma findIndex_None {A} (q : A → bool) (l : list A) :
  findIndex q l = None ↔ Forall (λ x, q x ≠ true) l.
Proof. unfold findIndex. by rewrite fmap_None, list_find_None. Qed.

Lemma find_cons {A} (q : A → bool) x (l : list A) :
  find q (x :: l) = if q x then Some x else find q l.
Proof.
  unfold find. cbn [list_find].
  destruct (q x) eqn:Hq; case_decide; try done.
  rewrite <- option_fmap_compose. apply option_fmap_ext. by intros [].
Qed.

Lemma find_filter {A} (q1 q2 : A → bool) (l : list A) :
  find q2 (filter (λ x, q1 x = true) l) = find (λ x, q1 x && q2 x) l.
Proof.
  induction l as [| x l IH]; [done |].
  rewrite filter_cons, (find_cons (λ x, q1 x && q2 x)).
  destruct (q1 x) eqn:Hq1; case_decide; try done; cbn [andb].
  rewrite find_cons. by destruct (q2 x).
Qed.

(** The level the form works on is the store's entry for the pair
    (itemId, selectedLocationId). *)
Lemma selectedStockLevel_stockLevelFor itemId levels form :
  selectedStockLevel itemId levels form
  = stockLevelFor (itemId, selectedLocationId form) levels.
Proof.
  unfold selectedStockLevel, itemStockLevels, stockLevelFor.
  apply (find_filter (λ level, String.eqb (StockLevel.itemId level) itemId)).
Qed.

Lemma updateStockLevel_stockLevels now s p :
  stockLevels (updateStockLevel now s p) = upsert (stockLevels s) p.
Proof.
  unfold updateStockLevel, upsert, push.
  change (λ level, String.eqb (StockLevel.itemId level) (StockLevel.itemId p)
                   && String.eqb (StockLevel.locationId level) (StockLevel.locationId p))
    with (hasKey (StockLevel.key p)).
  by destruct (findIndex _ _).
Qed.

Lemma ws_stock_update_stockLevels now s p ts :
  stockLevels (handleWebSocketMessage now s (stock_update p ts))
  = upsert (stockLevels s) p.
Proof.
  unfold handleWebSocketMessage, upsert, push.
  change (λ level, String.eqb (StockLevel.itemId level) (StockLevel.itemId p)
                   && String.eqb (StockLevel.locationId level) (StockLevel.locationId p))
    with (hasKey (StockLevel.key p)).
  by destruct (findIndex _ _).
Qed.

Lemma upsert_keys_existing levels p i :
  findIndex (hasKey (StockLevel.key p)) levels = Some i →
  StockLevel.key <$> upsert levels p = StockLevel.key <$> levels.
Proof.
  intros Hi. unfold upsert. rewrite Hi.
  apply findIndex_Some in Hi as (x & Hx & Hk%hasKey_spec & _).
  rewrite list_fmap_insert. apply list_insert_id.
  by rewrite list_lookup_fmap, Hx, <- Hk.
Qed.

Lemma findIndex_None_key levels p :
  findIndex (hasKey (StockLevel.key p)) levels = None ↔
  StockLevel.key p ∉ StockLevel.key <$> levels.
Proof.
  rewrite findIndex_None, Forall_forall, list_elem_of_fmap. split.
  - intros H (level & Hk & Hin). apply (H level Hin). by apply hasKey_spec.
  - intros H level Hin Hk%hasKey_spec. apply H. by exists level.
Qed.

Lemma upsert_NoDup levels p :
  NoDup (StockLevel.key <$> levels) →
  NoDup (StockLevel.key <$> upsert levels p).
Proof.
  intros Hnd.
  destruct (findIndex (hasKey (StockLevel.key p)) levels) as [i |] eqn:Hi.
  - by rewrite (upsert_keys_existing _ _ i).
  - unfold upsert. rewrite Hi, fmap_app. apply NoDup_app. split_and!.
    + done.
    + intros k Hk [->|[]%elem_of_nil]%elem_of_cons.
      by apply findIndex_None_key in Hi.
    + apply NoDup_singleton.
Qed.

(** With one entry per pair, the entry of a pair is the one [findIndex]
    finds. *)
Lemma findIndex_unique levels p i old :
  NoDup (StockLevel.key <$> levels) →
  levels !! i = Some old →
  StockLevel.key old = StockLevel.key p →
  findIndex (hasKey (StockLevel.key p)) levels = Some i.
Proof.
  intros Hnd Hi Hk. apply findIndex_Some. exists old.
  split_and!; [done | by apply hasKey_spec |].
  intros j y Hj Hlt Hy%hasKey_spec.
  assert (j = i); [| lia].
  eapply (NoDup_lookup _ _ _ _ Hnd); rewrite list_lookup_fmap.
  - by rewrite Hj.
  - rewrite Hi. cbn. by rewrite Hk, Hy.
Qed.

(** After the step, the entry found for the payload's pair is the payload. *)
Lemma upsert_stockLevelFor levels p :
  stockLevelFor (StockLevel.key p) (upsert levels p) = Some p.
Proof.
  unfold stockLevelFor, find, upsert. rewrite fmap_Some.
  destruct (findIndex _ levels) as [i |] eqn:Hi.
  - exists (i, p). split; [| done].
    apply findIndex_Some in Hi as (x & Hx & _ & Hfirst).
    apply list_find_Some. split_and!.
    + apply list_lookup_insert_eq. by eapply lookup_lt_Some.
    + by apply hasKey_spec.
    + intros j y Hj Hlt. rewrite list_lookup_insert_ne in Hj by lia. eauto.
  - exists (length levels, p). split; [| done].
    apply list_find_Some. split_and!.
    + by rewrite lookup_app_r, Nat.sub_diag.
    + by apply hasKey_spec.
    + intros j y Hj Hlt. rewrite lookup_app_l in Hj by done.
      apply findIndex_None in Hi. rewrite Forall_lookup in Hi. eauto.
Qed.
End StockLevels.

(** ** C6: one entry per (itemId, locationId) pair *)

(** C6.  When the stock-level collection holds at most one entry per
    (itemId, locationId) pair, it still does after [updateStockLevel] and
    after a ['stock_update'] message; an update for a pair already present
    replaces that entry where it stands, an update for a new pair appends
    exactly one entry. *)
Theorem C6_one_entry_per_pair now s p ts :
  NoDup (StockLevel.key <$> stockLevels s) →
  let levels' := stockLevels (updateStockLevel now s p) in
  stockLevels (handleWebSocketMessage now s (stock_update p ts)) = levels'
  ∧ NoDup (StockLevel.key <$> levels')
  ∧ (∀ i old, stockLevels s !! i = Some old →
              StockLevel.key old = StockLevel.key p →
              levels' = <[i := p]> (stockLevels s)
              ∧ length levels' = length (stockLevels s)
              ∧ levels' !! i = Some p)
  ∧ (StockLevel.key p ∉ StockLevel.key <$> stockLevels s →
     levels' = stockLevels s ++ [p]).
Proof.
  intros Hnd levels'. subst levels'.
  rewrite ws_stock_update_stockLevels, updateStockLevel_stockLevels.
  split_and!.
  - done.
  - by apply upsert_NoDup.
  - intros i old Hi Hk. unfold upsert.
    rewrite (findIndex_unique _ _ i old) by done.
    split_and!; [done | apply length_insert |].
    apply list_lookup_insert_eq. by eapply lookup_lt_Some.
  - intros Hnew%findIndex_None_key. unfold upsert. by rewrite Hnew.
Qed.

Lemma C6_one_entry_per_pair_witness :
  let s := set_stockLevels [sampleLevel "vodka" "main-bar" 10;
                            sampleLevel "gin" "main-bar" 4] initialState in
  let p := sampleLevel "gin" "main-bar" 7 in
  let now := "2024-01-01T00:00:02.000Z" in
  let levels' := stockLevels (updateStockLevel now s p) in
  NoDup (StockLevel.key <$> stockLevels s)
  ∧ stockLevels (handleWebSocketMessage now s (stock_update p now)) = levels'
  ∧ NoDup (StockLevel.key <$> levels')
  ∧ (∀ i old, stockLevels s !! i = Some old →
              StockLevel.key old = StockLevel.key p →
              levels' = <[i := p]> (stockLevels s)
              ∧ length levels' = length (stockLevels s)
              ∧ levels' !! i = Some p)
  ∧ (StockLevel.key p ∉ StockLevel.key <$> stockLevels s →
     levels' = stockLevels s ++ [p]).
Proof.
  cbn zeta.
  assert (Hnd : NoDup (StockLevel.key <$>
                         stockLevels
                           (set_stockLevels [sampleLevel "vodka" "main-bar" 10;
                                             sampleLevel "gin" "main-bar" 4]
                              initialState))).
  { apply (bool_decide_unpack _). vm_compute. reflexivity. }
  split; [exact Hnd |].
  exact (C6_one_entry_per_pair "2024-01-01T00:00:02.000Z" _
           (sampleLevel "gin" "main-bar" 7) "2024-01-01T00:00:02.000Z" Hnd).
Defined.

(** ** C5: no version counter on the client's stock record *)

(** C5 as stated fails.  Nothing that can be read off the stored stock record
    goes up by one with every accepted update: applying an update whose
    payload equals the stored record leaves that record as it was. *)
Lemma C5_no_version_counter :
  (let p := sampleLevel "vodka" "main-bar" 10 in
   let s := set_stockLevels [p] initialState in
   stockLevels (updateStockLevel "2024-01-01T00:00:02.000Z" s p) = stockLevels s)
  ∧ ¬ ∃ version : StockLevel.t → Z,
      ∀ now s p old,
        stockLevelFor (StockLevel.key p) (stockLevels s) = Some old →
        ∃ new,
          stockLevelFor (StockLevel.key p) (stockLevels (updateStockLevel now s p))
          = Some new
          ∧ version new = (version old + 1)%Z.
Proof.
  split; [reflexivity |].
  intros [version Hv].
  pose (p := sampleLevel "vodka" "main-bar" 10).
  destruct (Hv "2024-01-01T00:00:02.000Z" (set_stockLevels [p] initialState) p p)
    as (new & Hnew & Hinc); [reflexivity |].
  rewrite updateStockLevel_stockLevels, upsert_stockLevelFor in Hnew.
  injection Hnew as <-. lia.
Qed.

(** C5, amended.  The client's stock record has no version field.  An update
    ([updateStockLevel] or a ['stock_update'] message) stores its payload as
    the record of the payload's pair, whatever was stored before, and stamps
    the state's [lastUpdated] with the current time. *)
Theorem C5_update_stores_payload now s p ts :
  let s1 := updateStockLevel now s p in
  let s2 := handleWebSocketMessage now s (stock_update p ts) in
  stockLevelFor (StockLevel.key p) (stockLevels s1) = Some p
  ∧ stockLevelFor (StockLevel.key p) (stockLevels s2) = Some p
  ∧ lastUpdated s1 = Some now
  ∧ lastUpdated s2 = Some now.
Proof.
  cbn zeta.
  rewrite ws_stock_update_stockLevels, updateStockLevel_stockLevels.
  split_and!; [apply upsert_stockLevelFor | apply upsert_stockLevelFor | done | done].
Qed.

(** ** A rejected request *)

Section Rejected.
Implicit Types (s : InventoryState) (adj : InventoryAdjustment.t).

Lemma rejected_submission api s adj m :
  api adj = Failed m →
  createInventoryAdjustment api s adj
  = set_error (Some (rejectValue m)) (set_isLoading false s).
Proof.
  intros Hapi. unfold createInventoryAdjustment. rewrite Hapi. reflexivity.
Qed.
End Rejected.

(** ** C8: what the form lets through *)

Section Submit.
Implicit Types (form : FormState) (s : InventoryState).

Lemma not_str_true str : JS.not_str str = true ↔ str = "".
Proof. by destruct str. Qed.

Lemma not_str_false str : JS.not_str str = false ↔ str ≠ "".
Proof. by destruct str. Qed.

Lemma handleSubmit_returns_early api itemId form s :
  selectedLocationId form = "" ∨ quantity form = "" ∨ reason form = "" →
  handleSubmit api itemId form s = mkSubmitted None s false.
Proof.
  intros H. unfold handleSubmit.
  assert (JS.not_str (selectedLocationId form) || JS.not_str (quantity form)
          || JS.not_str (reason form) = true) as ->; [| done].
  rewrite !orb_true_iff, !not_str_true. tauto.
Qed.

Lemma handleSubmit_dispatches api itemId form s :
  selectedLocationId form ≠ "" → quantity form ≠ "" → reason form ≠ "" →
  dispatched (handleSubmit api itemId form s)
  = Some (InventoryAdjustment.mk itemId (selectedLocationId form)
            (adjustmentType form) (JS.parseFloat (quantity form)) (reason form)
            (JS.or_undefined (notes form))).
Proof.
  intros H1%not_str_false H2%not_str_false H3%not_str_false.
  unfold handleSubmit. rewrite H1, H2, H3. cbn [orb].
  by destruct (api _).
Qed.

Lemma quantityInput_bars_negative str q :
  JS.parseFloat str = Num q → q < 0 → quantityInputValid str = false.
Proof.
  intros Hq Hneg. unfold quantityInputValid. rewrite Hq.
  assert (Qle_bool quantity_min q = false) as ->.
  { apply not_true_is_false. rewrite Qle_bool_iff. unfold quantity_min. lra. }
  by rewrite andb_false_r.
Qed.
End Submit.

(** C8 as stated fails: an adjustment of amount 0 passes the quantity field's
    constraints and [handleSubmit] dispatches it; the transaction the server
    answers with is recorded. *)
Lemma C8_zero_amount_dispatched :
  let form := sampleForm subtract "0" in
  let api := λ _ : InventoryAdjustment.t, Resolved (sampleTransaction 1) in
  let r := handleSubmit api "vodka" form initialState in
  JS.parseFloat (quantity form) = Num 0
  ∧ quantityInputValid (quantity form) = true
  ∧ dispatched r = Some (sampleAdjustment subtract 0)
  ∧ transactions (store r) = [sampleTransaction 1].
Proof. cbn zeta. split_and!; reflexivity. Qed.

(** C8, amended.  [handleSubmit] returns without dispatching, leaving the
    store as it is, exactly when the location, the quantity text or the
    reason is empty; otherwise it dispatches the adjustment with the parsed
    amount, whatever its sign.  The quantity field's [min="0"] constraint
    bars negative amounts only. *)
Theorem C8_submission_guard api itemId form s :
  (dispatched (handleSubmit api itemId form s) = None
   ↔ selectedLocationId form = "" ∨ quantity form = "" ∨ reason form = "")
  ∧ (dispatched (handleSubmit api itemId form s) = None →
     store (handleSubmit api itemId form s) = s)
  ∧ (dispatched (handleSubmit api itemId form s) ≠ None →
     dispatched (handleSubmit api itemId form s)
     = Some (InventoryAdjustment.mk itemId (selectedLocationId form)
               (adjustmentType form) (JS.parseFloat (quantity form)) (reason form)
               (JS.or_undefined (notes form))))
  ∧ (∀ q, JS.parseFloat (quantity form) = Num q → q < 0 →
          quantityInputValid (quantity form) = false).
Proof.
  destruct (decide (selectedLocationId form = "" ∨ quantity form = ""
                    ∨ reason form = "")) as [Hempty | Hfull].
  - rewrite (handleSubmit_returns_early _ _ _ _ Hempty). cbn [dispatched store].
    split_and!; [done | done | done |].
    apply quantityInput_bars_negative.
  - assert (Hd := handleSubmit_dispatches api itemId form s).
    assert (selectedLocationId form ≠ "" ∧ quantity form ≠ "" ∧ reason form ≠ "")
      as (H1 & H2 & H3) by tauto.
    specialize (Hd H1 H2 H3). rewrite Hd.
    split_and!; [split; [done | tauto] | done | done |].
    apply quantityInput_bars_negative.
Qed.

(** ** C1 and C2: the adjustment computation *)

Section Computation.
Implicit Types (level : StockLevel.t) (form : FormState) (q a : Q).

Lemma parseFloat_Num_nonempty str a :
  JS.parseFloat str = Num a → JS.not_str str = false.
Proof. by destruct str. Qed.

Lemma getNewStockLevel_add level form q a :
  StockLevel.currentStock level = Num q →
  adjustmentType form = add →
  JS.parseFloat (quantity form) = Num a →
  getNewStockLevel (Some level) form = Num (q + a).
Proof.
  intros Hq Hty Ha. unfold getNewStockLevel.
  by rewrite (parseFloat_Num_nonempty _ a), Hty, Hq, Ha.
Qed.

Lemma getNewStockLevel_subtract level form q a :
  StockLevel.currentStock level = Num q →
  adjustmentType form = subtract →
  JS.parseFloat (quantity form) = Num a →
  getNewStockLevel (Some level) form = Num (Qmax 0 (q - a)).
Proof.
  intros Hq Hty Ha. unfold getNewStockLevel.
  by rewrite (parseFloat_Num_nonempty _ a), Hty, Hq, Ha.
Qed.

(** [Math.max(0, x)] is the literal [0] as soon as [x] is negative. *)
Lemma Qmax_0_neg (x : Q) : x < 0 → Qmax 0 x = 0.
Proof.
  intros Hx. unfold Qmax, GenericMinMax.gmax.
  destruct (Qcompare 0 x) eqn:Hc; [done | | done].
  apply Qlt_alt in Hc. lra.
Qed.

Lemma isDelta_inv form :
  isDelta form = true →
  ∃ a, JS.parseFloat (quantity form) = Num a ∧ amount form = a
       ∧ (adjustmentType form = add ∨ adjustmentType form = subtract).
Proof.
  unfold isDelta, amount.
  destruct (adjustmentType form), (JS.parseFloat (quantity form)) as [a |];
    try discriminate; intros _; exists a; auto.
Qed.

(** One step of the series, when the SUBTRACT (if it is one) does not ask
    for more than there is. *)
Lemma applyAdjustment_exact level form c q :
  StockLevel.currentStock level = Num c →
  c == q →
  isDelta form = true →
  neverExceeds q [form] = true →
  ∃ c', StockLevel.currentStock (applyAdjustment level form) = Num c'
        ∧ c' == q + signedAmount form.
Proof.
  intros Hc Hcq (a & Ha & Hamt & Hty)%isDelta_inv Hne.
  unfold applyAdjustment, with_currentStock. cbn [StockLevel.currentStock].
  unfold signedAmount. cbn [neverExceeds] in Hne. rewrite Hamt in *.
  destruct Hty as [Hty | Hty]; rewrite Hty in *.
  - rewrite (getNewStockLevel_add _ _ c a) by done.
    eexists. split; [done |]. lra.
  - rewrite (getNewStockLevel_subtract _ _ c a) by done.
    eexists. split; [done |].
    apply andb_true_iff in Hne as [Hle%Qle_bool_iff _].
    rewrite Q.max_r; lra.
Qed.

Lemma applyAdjustments_exact forms : ∀ level c q,
  StockLevel.currentStock level = Num c →
  c == q →
  Forall (λ form, isDelta form = true) forms →
  neverExceeds q forms = true →
  ∃ r, StockLevel.currentStock (applyAdjustments level forms) = Num r
       ∧ r == q + sumSigned forms.
Proof.
  unfold applyAdjustments.
  induction forms as [| form forms IH]; intros level c q Hc Hcq Hall Hne.
  - exists c. cbn. split; [done | lra].
  - apply Forall_cons in Hall as [Hd Hall].
    cbn [neverExceeds] in Hne. apply andb_true_iff in Hne as [Hhd Htl].
    destruct (applyAdjustment_exact level form c q) as (c' & Hc' & Hcq');
      [done | done | done | cbn [neverExceeds]; by rewrite Hhd |].
    destruct (IH (applyAdjustment level form) c' (q + signedAmount form))
      as (r & Hr & Hrq); [done | done | done | done |].
    exists r. cbn [foldl sumSigned foldr]. split; [done |].
    fold (sumSigned forms). lra.
Qed.

Lemma sumSigned_Permutation forms forms' :
  forms ≡ₚ forms' → sumSigned forms == sumSigned forms'.
Proof.
  induction 1 as [| x l l' _ IH | x y l | l l' l'' _ IH1 _ IH2];
    cbn [sumSigned foldr].
  - lra.
  - fold (sumSigned l) (sumSigned l'). lra.
  - fold (sumSigned l). lra.
  - lra.
Qed.
End Computation.

(** C1 as stated fails: with 2 in stock for (vodka, main-bar), SUBTRACT 5 is
    not refused; the computation answers 0, which is not the quantity there
    was. *)
Lemma C1_subtract_is_clamped :
  let levels := [sampleLevel "gin" "main-bar" 4; sampleLevel "vodka" "main-bar" 2] in
  let form := sampleForm subtract "5" in
  let selected := selectedStockLevel "vodka" levels form in
  selected = Some (sampleLevel "vodka" "main-bar" 2)
  ∧ JS.parseFloat (quantity form) = Num 5
  ∧ getNewStockLevel selected form = Num 0
  ∧ Some (getNewStockLevel selected form) ≠ StockLevel.currentStock <$> selected.
Proof. cbn zeta. split_and!; [reflexivity | reflexivity | reflexivity | discriminate]. Qed.

(** C1, amended.  For every (itemId, locationId) pair and every proposed
    SUBTRACT whose amount exceeds the pair's current quantity, the adjustment
    computation raises no error: it answers 0, the difference clamped by
    [Math.max(0, _)]. *)
Theorem C1_subtract_beyond_stock_gives_zero itemId levels form level q a :
  selectedStockLevel itemId levels form = Some level →
  StockLevel.currentStock level = Num q →
  adjustmentType form = subtract →
  JS.parseFloat (quantity form) = Num a →
  q < a →
  getNewStockLevel (selectedStockLevel itemId levels form) form = Num 0
  ∧ stockLevelFor (itemId, selectedLocationId form) levels = Some level.
Proof.
  intros Hsel Hq Hty Ha Hlt. split.
  - rewrite Hsel, (getNewStockLevel_subtract level form q a) by done.
    f_equal. apply Qmax_0_neg. lra.
  - by rewrite <- selectedStockLevel_stockLevelFor.
Qed.

Lemma C1_subtract_beyond_stock_gives_zero_witness :
  let levels := [sampleLevel "vodka" "main-bar" 8; sampleLevel "gin" "main-bar" 2] in
  let form := sampleForm subtract "5" in
  let level := sampleLevel "gin" "main-bar" 2 in
  selectedStockLevel "gin" levels form = Some level
  ∧ StockLevel.currentStock level = Num 2
  ∧ adjustmentType form = subtract
  ∧ JS.parseFloat (quantity form) = Num 5
  ∧ 2 < 5
  ∧ getNewStockLevel (selectedStockLevel "gin" levels form) form = Num 0
  ∧ stockLevelFor ("gin", selectedLocationId form) levels = Some level.
Proof.
  cbn zeta. do 5 (split; [reflexivity |]).
  apply (C1_subtract_beyond_stock_gives_zero "gin"
           [sampleLevel "vodka" "main-bar" 8; sampleLevel "gin" "main-bar" 2]
           (sampleForm subtract "5") (sampleLevel "gin" "main-bar" 2) 2 5);
    reflexivity.
Defined.




(** * Further properties of the client *)

(** ** Stock-level updates and lookups *)

Section StockLevelUpdates.
Implicit Types (s : InventoryState) (p level : StockLevel.t)
  (levels : list StockLevel.t) (form : FormState) (k : string * string).

Lemma find_Some_findIndex {A} (q : A → bool) (l : list A) x :
  find q l = Some x → ∃ i, findIndex q l = Some i ∧ l !! i = Some x.
Proof.
  unfold find, findIndex. intros ([i y] & Hf & ->)%fmap_Some.
  exists i. rewrite Hf. split; [done |]. by apply list_find_Some in Hf as [? _].
Qed.

Lemma find_insert_other {A} (q : A → bool) (l : list A) i x y :
  l !! i = Some y → q y = false → q x = false →
  find q (<[i := x]> l) = find q l.
Proof.
  revert i. induction l as [| z l IH]; intros [| i] Hi Hy Hx; try done.
  - injection Hi as ->. change (find q (x :: l) = find q (y :: l)).
    by rewrite !find_cons, Hx, Hy.
  - change (find q (z :: <[i := x]> l) = find q (z :: l)).
    rewrite !find_cons. destruct (q z); [done |]. by apply IH.
Qed.

Lemma find_app_other {A} (q : A → bool) (l : list A) x :
  q x = false → find q (l ++ [x]) = find q l.
Proof.
  intros Hx. induction l as [| z l IH].
  - change (find q [x] = find q []). by rewrite find_cons, Hx.
  - change (find q (z :: (l ++ [x])) = find q (z :: l)).
    rewrite !find_cons. by destruct (q z).
Qed.

Lemma hasKey_false k level : hasKey k level = false ↔ StockLevel.key level ≠ k.
Proof. rewrite <- hasKey_spec. by destruct (hasKey k level). Qed.

Lemma upsert_idem levels p : upsert (upsert levels p) p = upsert levels p.
Proof.
  destruct (find_Some_findIndex _ _ _ (upsert_stockLevelFor levels p))
    as (j & Hj & Hp).
  unfold upsert at 1. rewrite Hj. by apply list_insert_id.
Qed.

Lemma upsert_other levels p k :
  StockLevel.key p ≠ k →
  stockLevelFor k (upsert levels p) = stockLevelFor k levels.
Proof.
  intros Hne. unfold stockLevelFor, upsert.
  destruct (findIndex _ levels) as [i |] eqn:Hi.
  - apply findIndex_Some in Hi as (y & Hy & Hk%hasKey_spec & _).
    apply (find_insert_other _ _ _ _ y); [done | |]; apply hasKey_false; congruence.
  - apply find_app_other. by apply hasKey_false.
Qed.

Lemma getStockLevelForItem_stockLevelFor levels itemId locationId :
  getStockLevelForItem levels itemId locationId
  = stockLevelFor (itemId, locationId) levels.
Proof. reflexivity. Qed.
End StockLevelUpdates.

(** X1.  Delivering the same stock update again changes nothing: whether it
    comes through [updateStockLevel] or as a ['stock_update'] message, the
    second application leaves the stock-level collection as the first one
    made it. *)
Theorem update_redelivered_is_harmless now1 now2 s p ts :
  let s1 := updateStockLevel now1 s p in
  stockLevels (updateStockLevel now2 s1 p) = stockLevels s1
  ∧ stockLevels (handleWebSocketMessage now2 s1 (stock_update p ts)) = stockLevels s1.
Proof.
  cbn zeta.
  rewrite ws_stock_update_stockLevels, !updateStockLevel_stockLevels.
  split; apply upsert_idem.
Qed.

(** X2.  An update for one (itemId, locationId) pair leaves the stock level
    the grid finds for every other pair as it was. *)
Theorem update_leaves_other_pairs now s p itemId locationId :
  (StockLevel.itemId p, StockLevel.locationId p) ≠ (itemId, locationId) →
  getStockLevelForItem (stockLevels (updateStockLevel now s p)) itemId locationId
  = getStockLevelForItem (stockLevels s) itemId locationId.
Proof.
  intros Hne.
  rewrite !getStockLevelForItem_stockLevelFor, updateStockLevel_stockLevels.
  by apply upsert_other.
Qed.

Lemma update_leaves_other_pairs_witness :
  let s := set_stockLevels [sampleLevel "vodka" "main-bar" 10;
                            sampleLevel "gin" "main-bar" 4] initialState in
  let p := sampleLevel "gin" "main-bar" 7 in
  (StockLevel.itemId p, StockLevel.locationId p) ≠ ("vodka", "main-bar")
  ∧ getStockLevelForItem (stockLevels (updateStockLevel "2024-01-01T00:00:02.000Z" s p))
      "vodka" "main-bar"
    = getStockLevelForItem (stockLevels s) "vodka" "main-bar".
Proof.
  cbn zeta. split; [discriminate |].
  apply (update_leaves_other_pairs "2024-01-01T00:00:02.000Z"
           (set_stockLevels [sampleLevel "vodka" "main-bar" 10;
                             sampleLevel "gin" "main-bar" 4] initialState)
           (sampleLevel "gin" "main-bar" 7) "vodka" "main-bar").
  discriminate.
Defined.

(** X3.  Updates for two different pairs can arrive in either order: every
    lookup gives the same stock level afterwards. *)
Theorem updates_of_different_pairs_commute now1 now2 s p1 p2 itemId locationId :
  StockLevel.key p1 ≠ StockLevel.key p2 →
  getStockLevelForItem
    (stockLevels (updateStockLevel now2 (updateStockLevel now1 s p1) p2))
    itemId locationId
  = getStockLevelForItem
      (stockLevels (updateStockLevel now2 (updateStockLevel now1 s p2) p1))
      itemId locationId.
Proof.
  intros Hne.
  rewrite !getStockLevelForItem_stockLevelFor, !updateStockLevel_stockLevels.
  set (k := (itemId, locationId)).
  destruct (decide (StockLevel.key p2 = k)) as [<- | H2].
  { by rewrite upsert_stockLevelFor, upsert_other, upsert_stockLevelFor. }
  destruct (decide (StockLevel.key p1 = k)) as [<- | H1].
  { by rewrite upsert_stockLevelFor, upsert_other, upsert_stockLevelFor. }
  by rewrite !upsert_other.
Qed.

Lemma updates_of_different_pairs_commute_witness :
  let s := set_stockLevels [sampleLevel "vodka" "main-bar" 10] initialState in
  let p1 := sampleLevel "gin" "main-bar" 7 in
  let p2 := sampleLevel "rum" "rooftop" 3 in
  StockLevel.key p1 ≠ StockLevel.key p2
  ∧ getStockLevelForItem
      (stockLevels (updateStockLevel "t2" (updateStockLevel "t1" s p1) p2))
      "gin" "main-bar"
    = getStockLevelForItem
        (stockLevels (updateStockLevel "t2" (updateStockLevel "t1" s p2) p1))
        "gin" "main-bar".
Proof.
  cbn zeta. split; [discriminate |].
  apply (updates_of_different_pairs_commute "t1" "t2"
           (set_stockLevels [sampleLevel "vodka" "main-bar" 10] initialState)
           (sampleLevel "gin" "main-bar" 7) (sampleLevel "rum" "rooftop" 3)
           "gin" "main-bar").
  discriminate.
Defined.

(** X4.  The adjustment form and the grid find the same stock level: the
    form's filter-then-find on (itemId, selectedLocationId) answers what the
    grid's single [find] answers for that pair. *)
Theorem form_and_grid_agree itemId levels form :
  selectedStockLevel itemId levels form
  = getStockLevelForItem levels itemId (selectedLocationId form).
Proof.
  unfold selectedStockLevel, itemStockLevels, getStockLevelForItem.
  apply (find_filter (λ level, String.eqb (StockLevel.itemId level) itemId)).
Qed.

(** ** The slice as a whole *)

Section Reducer.
Implicit Types (s : InventoryState) (a : Action) (log : list (string * Action)).

Lemma addTransaction_stockLevels s t :
  stockLevels (addTransaction s t) = stockLevels s.
Proof.
  unfold addTransaction. cbn [transactions set_transactions].
  destruct (100 <? length (unshift t (transactions s)))%nat; reflexivity.
Qed.

Lemma ws_transaction_stockLevels now s t ts :
  stockLevels (handleWebSocketMessage now s (transaction t ts)) = stockLevels s.
Proof.
  unfold handleWebSocketMessage. cbn [transactions set_transactions].
  destruct (100 <? length (unshift t (transactions s)))%nat; reflexivity.
Qed.

Lemma ws_stock_update_transactions now s p ts :
  transactions (handleWebSocketMessage now s (stock_update p ts)) = transactions s.
Proof. unfold handleWebSocketMessage. by destruct (findIndex _ _). Qed.

Lemma updateStockLevel_transactions now s p :
  transactions (updateStockLevel now s p) = transactions s.
Proof. unfold updateStockLevel. by destruct (findIndex _ _). Qed.

Lemma dispatchAll_snoc s log now a :
  dispatchAll s (log ++ [(now, a)]) = inventoryReducer now (dispatchAll s log) a.
Proof. unfold dispatchAll. by rewrite foldl_app. Qed.
End Reducer.

(** ** C9, amended: older transactions through a run of actions *)

Section Runs.
Implicit Types (s : InventoryState) (a : Action) (log : list (string * Action)).

Lemma reducer_transactions now s a :
  (∀ p, a ≠ FetchTransactionsFulfilled p) →
  transactions (inventoryReducer now s a)
  = match insertedBy a with
    | Some t => take 100 (t :: transactions s)
    | None => transactions s
    end.
Proof.
  intros Hnofetch.
  destruct a as [| | | p | t | [p ts | t ts |] | | | | | | | | | | p | | | t |];
    cbn [inventoryReducer insertedBy]; try reflexivity.
  - apply updateStockLevel_transactions.
  - apply addTransaction_transactions.
  - apply ws_stock_update_transactions.
  - apply ws_transaction_transactions.
  - by destruct (Hnofetch p).
  - apply fulfilled_transactions.
Qed.

Lemma insertedIn_snoc log now a :
  insertedIn (log ++ [(now, a)])
  = match insertedBy a with
    | Some t => t :: insertedIn log
    | None => insertedIn log
    end.
Proof.
  unfold insertedIn. rewrite omap_app, reverse_app.
  change (omap (λ entry : string * Action, insertedBy entry.2) [(now, a)])
    with (match insertedBy a with Some t => [t] | None => [] end).
  by destruct (insertedBy a).
Qed.

(** After a run without [fetchTransactions.fulfilled] the list is the old
    one if nothing was inserted, and otherwise the first 100 entries of the
    inserted transactions, latest first, followed by the old ones. *)
Lemma dispatchAll_transactions s log :
  Forall (λ entry, ∀ p, entry.2 ≠ FetchTransactionsFulfilled p) log →
  transactions (dispatchAll s log)
  = match insertedIn log with
    | [] => transactions s
    | new => take 100 (new ++ transactions s)
    end.
Proof.
  induction log as [| [now a] log IH] using rev_ind; intros Hlog; [done |].
  apply Forall_app in Hlog as [Hlog [Ha _]%Forall_cons].
  rewrite dispatchAll_snoc, insertedIn_snoc, reducer_transactions by exact Ha.
  rewrite (IH Hlog).
  destruct (insertedBy a) as [t |]; [| done].
  destruct (insertedIn log) as [| t' new]; [done |].
  apply (take_cons_take 99).
Qed.
End Runs.

(** C9, amended.  Take any run of the slice's actions that contains no
    [fetchTransactions.fulfilled] and inserts [n] transactions (by
    [addTransaction], ['transaction'] messages or fulfilled adjustments).  A
    transaction at index [i] of the list before the run is still there,
    unchanged, at index [i + n] when [i + n < 100].  When [n >= 1] the list
    after the run is exactly the first 100 entries of the inserted
    transactions, latest first, followed by the old list: an entry with
    [i + n >= 100] has been discarded.  A [fetchTransactions.fulfilled]
    replaces the whole list by the fetched one. *)
Theorem C9_kept_within_cap_else_discarded s log :
  Forall (λ entry, ∀ p, entry.2 ≠ FetchTransactionsFulfilled p) log →
  let new := insertedIn log in
  let s' := dispatchAll s log in
  (∀ i t, transactions s !! i = Some t →
          (i + length new < 100)%nat →
          transactions s' !! (i + length new)%nat = Some t)
  ∧ (new ≠ [] → transactions s' = take 100 (new ++ transactions s))
  ∧ (new ≠ [] → ∀ i, (100 ≤ i + length new)%nat →
                     transactions s' !! (i + length new)%nat = None)
  ∧ (∀ now payload,
       transactions (inventoryReducer now s' (FetchTransactionsFulfilled payload))
       = payload).
Proof.
  intros Hlog new s'. subst new s'.
  rewrite (dispatchAll_transactions s log Hlog).
  destruct (insertedIn log) as [| t new] eqn:Hnew.
  - split_and!; [| done | done | done].
    intros i t Hi _. cbn [length]. by rewrite Nat.add_0_r.
  - split_and!; [| done | | done].
    + intros i t' Hi Hlt.
      rewrite lookup_take_lt by lia.
      rewrite lookup_app_r by lia.
      by replace (i + length (t :: new) - length (t :: new))%nat with i by lia.
    + intros _ i Hge. apply lookup_ge_None. rewrite length_take. lia.
Qed.

Lemma C9_kept_within_cap_else_discarded_witness :
  let s := set_transactions [sampleTransaction 0] initialState in
  let log := [("t1", AddTransaction (sampleTransaction 1));
              ("t2", UpdateStockLevel (sampleLevel "vodka" "main-bar" 9));
              ("t3", HandleWebSocketMessage (transaction (sampleTransaction 2) "t3"));
              ("t4", CreateAdjustmentRejected "Insufficient stock");
              ("t5", CreateAdjustmentFulfilled (sampleTransaction 3))] in
  let new := insertedIn log in
  let s' := dispatchAll s log in
  Forall (λ entry, ∀ p, entry.2 ≠ FetchTransactionsFulfilled p) log
  ∧ new = [sampleTransaction 3; sampleTransaction 2; sampleTransaction 1]
  ∧ (∀ i t, transactions s !! i = Some t →
            (i + length new < 100)%nat →
            transactions s' !! (i + length new)%nat = Some t)
  ∧ (new ≠ [] → transactions s' = take 100 (new ++ transactions s))
  ∧ (new ≠ [] → ∀ i, (100 ≤ i + length new)%nat →
                       transactions s' !! (i + length new)%nat = None)
  ∧ (∀ now payload,
       transactions (inventoryReducer now s' (FetchTransactionsFulfilled payload))
       = payload).
Proof.
  cbn zeta.
  assert (Hlog : Forall (λ entry : string * Action,
                    ∀ p, entry.2 ≠ FetchTransactionsFulfilled p)
                   [("t1", AddTransaction (sampleTransaction 1));
                    ("t2", UpdateStockLevel (sampleLevel "vodka" "main-bar" 9));
                    ("t3", HandleWebSocketMessage (transaction (sampleTransaction 2) "t3"));
                    ("t4", CreateAdjustmentRejected "Insufficient stock");
                    ("t5", CreateAdjustmentFulfilled (sampleTransaction 3))]).
  { repeat apply Forall_cons_2; try apply Forall_nil_2; intros p; discriminate. }
  split; [exact Hlog |]. split; [reflexivity |].
  exact (C9_kept_within_cap_else_discarded
           (set_transactions [sampleTransaction 0] initialState) _ Hlog).
Defined.

(** X5.  The stock-level collection is changed by three kinds of action only:
    [updateStockLevel], a ['stock_update'] message, and the arrival of fetched
    stock levels.  Every other action of the slice leaves it as it is. *)
Theorem stockLevels_changed_by_three_actions now s a :
  match a with
  | UpdateStockLevel _
  | HandleWebSocketMessage (stock_update _ _)
  | FetchStockLevelsFulfilled _ => True
  | _ => stockLevels (inventoryReducer now s a) = stockLevels s
  end.
Proof.
  destruct a as [| | | | t | [| t ts |] | | | | | | | | | | | | | t |];
    try done; cbn [inventoryReducer].
  - apply addTransaction_stockLevels.
  - apply ws_transaction_stockLevels.
  - apply fulfilled_stockLevels.
Qed.

(** X6.  The transaction list is changed by four kinds of action only:
    [addTransaction], a ['transaction'] message, a fulfilled adjustment, and
    the arrival of fetched transactions.  Every other action of the slice,
    a rejected adjustment included, leaves it as it is. *)
Theorem transactions_changed_by_four_actions now s a :
  match a with
  | AddTransaction _
  | HandleWebSocketMessage (transaction _ _)
  | CreateAdjustmentFulfilled _
  | FetchTransactionsFulfilled _ => True
  | _ => transactions (inventoryReducer now s a) = transactions s
  end.
Proof.
  destruct a as [| | | p | | [p ts | |] | | | | | | | | | | | | | |];
    try done; cbn [inventoryReducer].
  - apply updateStockLevel_transactions.
  - apply ws_stock_update_transactions.
Qed.

(** X7.  One entry per (itemId, locationId) pair is an invariant of the whole
    slice: it survives every run of actions in which each fetched list of
    stock levels has itself one entry per pair. *)
Theorem one_entry_per_pair_invariant s log :
  NoDup (StockLevel.key <$> stockLevels s) →
  Forall (λ entry, ∀ p, entry.2 = FetchStockLevelsFulfilled p →
                        NoDup (StockLevel.key <$> p)) log →
  NoDup (StockLevel.key <$> stockLevels (dispatchAll s log)).
Proof.
  intros Hs Hlog.
  induction log as [| [now a] log IH] using rev_ind; [done |].
  apply Forall_app in Hlog as [Hlog [Ha _]%Forall_cons].
  specialize (IH Hlog). rewrite dispatchAll_snoc.
  pose proof (stockLevels_changed_by_three_actions now (dispatchAll s log) a) as Hframe.
  destruct a as [| | | p | | [p ts | |] | | | | | | p | | | | | | | |];
    try (by rewrite Hframe).
  - cbn [inventoryReducer]. rewrite updateStockLevel_stockLevels.
    by apply upsert_NoDup.
  - cbn [inventoryReducer]. rewrite ws_stock_update_stockLevels.
    by apply upsert_NoDup.
  - by apply (Ha p).
Qed.

Lemma one_entry_per_pair_invariant_witness :
  let log := [("t1", FetchStockLevelsFulfilled [sampleLevel "vodka" "main-bar" 10;
                                                sampleLevel "gin" "main-bar" 4]);
              ("t2", UpdateStockLevel (sampleLevel "gin" "main-bar" 7));
              ("t3", HandleWebSocketMessage
                       (stock_update (sampleLevel "rum" "rooftop" 2) "t3"));
              ("t4", AddTransaction (sampleTransaction 1))] in
  NoDup (StockLevel.key <$> stockLevels initialState)
  ∧ Forall (λ entry, ∀ p, entry.2 = FetchStockLevelsFulfilled p →
                          NoDup (StockLevel.key <$> p)) log
  ∧ NoDup (StockLevel.key <$> stockLevels (dispatchAll initialState log)).
Proof.
  cbn zeta.
  assert (H0 : NoDup (StockLevel.key <$> stockLevels initialState)) by constructor.
  assert (Hlog : Forall (λ entry : string * Action,
                    ∀ p, entry.2 = FetchStockLevelsFulfilled p →
                         NoDup (StockLevel.key <$> p))
                   [("t1", FetchStockLevelsFulfilled [sampleLevel "vodka" "main-bar" 10;
                                                      sampleLevel "gin" "main-bar" 4]);
                    ("t2", UpdateStockLevel (sampleLevel "gin" "main-bar" 7));
                    ("t3", HandleWebSocketMessage
                             (stock_update (sampleLevel "rum" "rooftop" 2) "t3"));
                    ("t4", AddTransaction (sampleTransaction 1))]).
  { repeat apply Forall_cons_2; try apply Forall_nil_2; intros p Hp;
      try discriminate Hp.
    injection Hp as <-. apply (bool_decide_unpack _). vm_compute. reflexivity. }
  split; [exact H0 |]. split; [exact Hlog |].
  exact (one_entry_per_pair_invariant initialState _ H0 Hlog).
Defined.

(** X8.  The cap of 100 on the transaction list is an invariant of the slice
    as long as no fetched list is longer: it survives every run of actions in
    which each fetched list of transactions has at most 100 entries. *)
Theorem transaction_cap_invariant s log :
  (length (transactions s) ≤ 100)%nat →
  Forall (λ entry, ∀ p, entry.2 = FetchTransactionsFulfilled p →
                        (length p ≤ 100)%nat) log →
  (length (transactions (dispatchAll s log)) ≤ 100)%nat.
Proof.
  intros Hs Hlog.
  induction log as [| [now a] log IH] using rev_ind; [done |].
  apply Forall_app in Hlog as [Hlog [Ha _]%Forall_cons].
  specialize (IH Hlog). rewrite dispatchAll_snoc.
  pose proof (transactions_changed_by_four_actions now (dispatchAll s log) a) as Hframe.
  assert (Hcap : ∀ (t : InventoryTransaction.t) l, (length (take 100 (t :: l)) ≤ 100)%nat).
  { intros t l. rewrite length_take. lia. }
  destruct a as [| | | | t | [| t ts |] | | | | | | | | | | p | | | t |];
    try (by rewrite Hframe); cbn [inventoryReducer].
  - by rewrite addTransaction_transactions.
  - by rewrite ws_transaction_transactions.
  - by apply (Ha p).
  - by rewrite fulfilled_transactions.
Qed.

Lemma transaction_cap_invariant_witness :
  let log := [("t1", FetchTransactionsFulfilled (sampleTransaction <$> seq 0 100));
              ("t2", AddTransaction (sampleTransaction 100));
              ("t3", CreateAdjustmentFulfilled (sampleTransaction 101))] in
  (length (transactions initialState) ≤ 100)%nat
  ∧ Forall (λ entry, ∀ p, entry.2 = FetchTransactionsFulfilled p →
                          (length p ≤ 100)%nat) log
  ∧ (length (transactions (dispatchAll initialState log)) ≤ 100)%nat.
Proof.
  cbn zeta.
  assert (H0 : (length (transactions initialState) ≤ 100)%nat) by (cbn; lia).
  assert (Hlog : Forall (λ entry : string * Action,
                    ∀ p, entry.2 = FetchTransactionsFulfilled p →
                         (length p ≤ 100)%nat)
                   [("t1", FetchTransactionsFulfilled (sampleTransaction <$> seq 0 100));
                    ("t2", AddTransaction (sampleTransaction 100));
                    ("t3", CreateAdjustmentFulfilled (sampleTransaction 101))]).
  { repeat apply Forall_cons_2; try apply Forall_nil_2; intros p Hp;
      try discriminate Hp.
    injection Hp as <-. apply (bool_decide_unpack _). vm_compute. reflexivity. }
  split; [exact H0 |]. split; [exact Hlog |].
  exact (transaction_cap_invariant initialState _ H0 Hlog).
Defined.

(** ** Submitting the form *)

Section Submission.
Implicit Types (s : InventoryState) (form : FormState).

Lemma rejectValue_nonempty m : rejectValue m ≠ "".
Proof.
  unfold rejectValue. destruct m as [[| c m] |]; cbn; discriminate.
Qed.

Lemma handleSubmit_cases api itemId form s :
  let adj := InventoryAdjustment.mk itemId (selectedLocationId form)
               (adjustmentType form) (JS.parseFloat (quantity form)) (reason form)
               (JS.or_undefined (notes form)) in
  handleSubmit api itemId form s = mkSubmitted None s false
  ∨ (∃ tx, api adj = Resolved tx
           ∧ handleSubmit api itemId form s
             = mkSubmitted (Some adj)
                 (createInventoryAdjustment_fulfilled
                    (createInventoryAdjustment_pending s) tx) true)
  ∨ (∃ m, api adj = Failed m
          ∧ handleSubmit api itemId form s
            = mkSubmitted (Some adj)
                (createInventoryAdjustment_rejected
                   (createInventoryAdjustment_pending s) (rejectValue m)) false).
Proof.
  cbn zeta. unfold handleSubmit, createInventoryAdjustment.
  destruct (_ || _ || _); [by left | right].
  destruct (api _) as [tx | m]; [left | right]; eauto.
Qed.

Lemma fulfilled_flags s t :
  error (createInventoryAdjustment_fulfilled s t) = error s
  ∧ isLoading (createInventoryAdjustment_fulfilled s t) = false.
Proof.
  unfold createInventoryAdjustment_fulfilled.
  cbn [transactions set_transactions set_isLoading].
  destruct (100 <? length (unshift t (transactions s)))%nat; by split.
Qed.
End Submission.

(** ** C7: a rejected submission changes the error message only *)

(** C7.  When an adjustment submitted through the form (its submit button
    enabled) is rejected, the stored state afterwards is the previous one
    with the error message set and nothing else changed: the stock level of
    every pair is the previous one and the transaction list has gained
    nothing. *)
Theorem C7_rejected_submission_only_sets_error api itemId form s adj m :
  submitDisabled s form = false →
  dispatched (handleSubmit api itemId form s) = Some adj →
  api adj = Failed m →
  let s' := store (handleSubmit api itemId form s) in
  s' = set_error (Some (rejectValue m)) s
  ∧ stockLevels s' = stockLevels s
  ∧ (∀ k, stockLevelFor k (stockLevels s') = stockLevelFor k (stockLevels s))
  ∧ transactions s' = transactions s.
Proof.
  unfold submitDisabled. intros Hen Hd Hapi.
  apply orb_false_iff in Hen as [[Hidle _]%orb_false_iff _].
  destruct (handleSubmit_cases api itemId form s)
    as [Hr | [(tx & Hapi' & Hr) | (m' & Hapi' & Hr)]];
    rewrite Hr in *; cbn [dispatched store] in *.
  - discriminate Hd.
  - injection Hd as <-. congruence.
  - injection Hd as <-. assert (m' = m) as -> by congruence.
    assert (createInventoryAdjustment_rejected (createInventoryAdjustment_pending s)
              (rejectValue m)
            = set_error (Some (rejectValue m)) s) as ->.
    { unfold createInventoryAdjustment_rejected, createInventoryAdjustment_pending,
        set_error, set_isLoading. cbn. by rewrite <- Hidle. }
    by split_and!.
Qed.

Lemma C7_rejected_submission_only_sets_error_witness :
  let s := set_stockLevels [sampleLevel "vodka" "main-bar" 2] initialState in
  let form := sampleForm subtract "5" in
  let adj := sampleAdjustment subtract 5 in
  let m := Some "Insufficient stock" in
  let api := λ _ : InventoryAdjustment.t, Failed m in
  let s' := store (handleSubmit api "vodka" form s) in
  submitDisabled s form = false
  ∧ dispatched (handleSubmit api "vodka" form s) = Some adj
  ∧ api adj = Failed m
  ∧ s' = set_error (Some (rejectValue m)) s
  ∧ stockLevels s' = stockLevels s
  ∧ (∀ k, stockLevelFor k (stockLevels s') = stockLevelFor k (stockLevels s))
  ∧ transactions s' = transactions s.
Proof.
  cbn zeta. do 3 (split; [reflexivity |]).
  apply (C7_rejected_submission_only_sets_error
           (λ _, Failed (Some "Insufficient stock")) "vodka"
           (sampleForm subtract "5")
           (set_stockLevels [sampleLevel "vodka" "main-bar" 2] initialState)
           (sampleAdjustment subtract 5) (Some "Insufficient stock"));
    reflexivity.
Defined.

(** X9.  The form closes only when the adjustment was accepted: if
    [handleSubmit] called [onClose], an adjustment was dispatched, the server
    resolved it with a transaction, that transaction is now first in the
    list, and [isLoading] is cleared. *)
Theorem form_closes_only_on_success api itemId form s :
  closed (handleSubmit api itemId form s) = true →
  ∃ adj tx,
    dispatched (handleSubmit api itemId form s) = Some adj
    ∧ api adj = Resolved tx
    ∧ transactions (store (handleSubmit api itemId form s)) !! 0%nat = Some tx
    ∧ isLoading (store (handleSubmit api itemId form s)) = false.
Proof.
  intros Hclosed.
  destruct (handleSubmit_cases api itemId form s)
    as [Hr | [(tx & Hapi & Hr) | (m & Hapi & Hr)]];
    rewrite Hr in *; try discriminate Hclosed.
  eexists _, tx. cbn [dispatched store].
  rewrite fulfilled_transactions.
  destruct (fulfilled_flags (createInventoryAdjustment_pending s) tx) as [_ ->].
  by split_and!.
Qed.

Lemma form_closes_only_on_success_witness :
  let api := λ _ : InventoryAdjustment.t, Resolved (sampleTransaction 1) in
  let form := sampleForm add "5" in
  let r := handleSubmit api "vodka" form initialState in
  closed r = true
  ∧ ∃ adj tx,
      dispatched r = Some adj
      ∧ api adj = Resolved tx
      ∧ transactions (store r) !! 0%nat = Some tx
      ∧ isLoading (store r) = false.
Proof.
  cbn zeta. split; [reflexivity |].
  apply (form_closes_only_on_success (λ _, Resolved (sampleTransaction 1)) "vodka"
           (sampleForm add "5") initialState).
  reflexivity.
Defined.



(** X11.  When the submit button is enabled and a location is selected,
    [handleSubmit] does dispatch: the button's tests on the quantity and the
    reason are the handler's own. *)
Theorem enabled_button_dispatches api itemId form s :
  submitDisabled s form = false →
  selectedLocationId form ≠ "" →
  dispatched (handleSubmit api itemId form s) ≠ None.
Proof.
  unfold submitDisabled. intros Hen Hloc.
  apply orb_false_iff in Hen as [[_ Hq]%orb_false_iff Hr].
  rewrite handleSubmit_dispatches; [done | done | |]; by apply not_str_false.
Qed.

Lemma enabled_button_dispatches_witness :
  let api := λ _ : InventoryAdjustment.t, Failed None in
  let form := sampleForm set "12" in
  submitDisabled initialState form = false
  ∧ selectedLocationId form ≠ ""
  ∧ dispatched (handleSubmit api "vodka" form initialState) ≠ None.
Proof.
  cbn zeta. split; [reflexivity |]. split; [discriminate |].
  apply (enabled_button_dispatches (λ _, Failed None) "vodka" (sampleForm set "12")
           initialState); [reflexivity | discriminate].
Defined.

(** X12.  [isLoading] is one flag for all requests.  For an item the
    store knows (so that the form is rendered) and a filled-in form, the
    submit button is disabled while an adjustment is pending; the arrival of
    fetched stock levels, or of fetched items that still include the item,
    clears the flag and the button is enabled again. *)
Theorem fetch_arrival_reenables_submit now s itemId form fetched levels :
  quantity form ≠ "" →
  reason form ≠ "" →
  is_Some (findItem itemId (items s)) →
  is_Some (findItem itemId fetched) →
  let pending := createInventoryAdjustment_pending s in
  submitButton itemId pending form = Some true
  ∧ submitButton itemId (fetchInventoryItems_fulfilled now pending fetched) form
    = Some false
  ∧ submitButton itemId (fetchStockLevels_fulfilled now pending levels) form
    = Some false.
Proof.
  intros Hq%not_str_false Hr%not_str_false [item Hitem] [item' Hitem'].
  cbn zeta. unfold submitButton, submitDisabled.
  cbn [items createInventoryAdjustment_pending fetchInventoryItems_fulfilled
         fetchStockLevels_fulfilled set_error set_isLoading set_items
         set_stockLevels set_lastUpdated isLoading].
  by rewrite Hitem, Hitem', Hq, Hr.
Qed.

Lemma fetch_arrival_reenables_submit_witness :
  let s := set_items [sampleItem "vodka"] initialState in
  let form := sampleForm add "5" in
  let fetched := [sampleItem "gin"; sampleItem "vodka"] in
  let pending := createInventoryAdjustment_pending s in
  quantity form ≠ ""
  ∧ reason form ≠ ""
  ∧ is_Some (findItem "vodka" (items s))
  ∧ is_Some (findItem "vodka" fetched)
  ∧ submitButton "vodka" pending form = Some true
  ∧ submitButton "vodka" (fetchInventoryItems_fulfilled "t1" pending fetched) form
    = Some false
  ∧ submitButton "vodka" (fetchStockLevels_fulfilled "t1" pending []) form
    = Some false.
Proof.
  cbn zeta. split; [discriminate |]. split; [discriminate |].
  assert (H1 : is_Some (findItem "vodka"
                          (items (set_items [sampleItem "vodka"] initialState))))
    by (eexists; reflexivity).
  assert (H2 : is_Some (findItem "vodka" [sampleItem "gin"; sampleItem "vodka"]))
    by (eexists; reflexivity).
  split; [exact H1 |]. split; [exact H2 |].
  apply (fetch_arrival_reenables_submit "t1"
           (set_items [sampleItem "vodka"] initialState) "vodka"
           (sampleForm add "5") [sampleItem "gin"; sampleItem "vodka"] []);
    [discriminate | discriminate | exact H1 | exact H2].
Defined.

(** ** The preview computation *)

Section Preview.
Implicit Types (level : StockLevel.t) (form : FormState) (q a : Q).

Lemma getNewStockLevel_set level form a :
  adjustmentType form = set →
  JS.parseFloat (quantity form) = Num a →
  getNewStockLevel (Some level) form = Num a.
Proof.
  intros Hty Ha. unfold getNewStockLevel.
  by rewrite (parseFloat_Num_nonempty _ a), Hty, Ha.
Qed.

End Preview.

(** X13.  With a non-negative stock and a non-negative amount the previewed
    stock level is a non-negative number, whichever adjustment type is
    chosen. *)
Theorem preview_is_never_negative level form q a :
  StockLevel.currentStock level = Num q →
  0 <= q →
  JS.parseFloat (quantity form) = Num a →
  0 <= a →
  ∃ r, getNewStockLevel (Some level) form = Num r ∧ 0 <= r.
Proof.
  intros Hq Hq0 Ha Ha0.
  destruct (adjustmentType form) eqn:Hty.
  - rewrite (getNewStockLevel_add level form q a) by done.
    eexists. split; [done | lra].
  - rewrite (getNewStockLevel_subtract level form q a) by done.
    eexists. split; [done | apply Q.le_max_l].
  - rewrite (getNewStockLevel_set level form a) by done.
    eexists. split; [done | lra].
Qed.

Lemma preview_is_never_negative_witness :
  let level := sampleLevel "vodka" "main-bar" 2 in
  let form := sampleForm subtract "5" in
  StockLevel.currentStock level = Num 2
  ∧ 0 <= 2
  ∧ JS.parseFloat (quantity form) = Num 5
  ∧ 0 <= 5
  ∧ ∃ r, getNewStockLevel (Some level) form = Num r ∧ 0 <= r.
Proof.
  cbn zeta. split; [reflexivity |]. split; [discriminate |].
  split; [reflexivity |]. split; [discriminate |].
  apply (preview_is_never_negative (sampleLevel "vodka" "main-bar" 2)
           (sampleForm subtract "5") 2 5); [reflexivity | | reflexivity |];
    discriminate.
Defined.

(** X15.  With an empty quantity field the preview is always a number: 0
    when no stock level is selected or the stored stock is [NaN], and
    otherwise the stored stock. *)
Theorem preview_with_empty_quantity selected form :
  quantity form = "" →
  ∃ r, getNewStockLevel selected form = Num r
       ∧ (selected = None → r = 0)
       ∧ (∀ level, selected = Some level →
                   StockLevel.currentStock level = NaN → r = 0)
       ∧ (∀ level q, selected = Some level →
                     StockLevel.currentStock level = Num q → r == q).
Proof.
  intros Hempty. unfold getNewStockLevel. rewrite Hempty. cbn [JS.not_str].
  destruct selected as [level |].
  - unfold JS.or, JS.truthy.
    destruct (StockLevel.currentStock level) as [q |] eqn:Hq.
    + destruct (Qeq_bool q 0) eqn:Hz; cbn [negb].
      * exists 0. split_and!; [done | done | by intros ? [= <-]; congruence |].
        intros level' q' [= <-] Hq'. rewrite Hq in Hq'. injection Hq' as <-.
        apply Qeq_bool_iff in Hz. by rewrite Hz.
      * exists q. split_and!; [done | done | by intros ? [= <-]; congruence |].
        intros level' q' [= <-] Hq'. rewrite Hq in Hq'. by injection Hq' as <-.
    + exists 0. split_and!; [done | done | done |].
      intros level' q' [= <-] Hq'. congruence.
  - exists 0. by split_and!.
Qed.

Lemma preview_with_empty_quantity_witness :
  let selected := Some (sampleLevel "vodka" "main-bar" 7) in
  let form := sampleForm add "" in
  quantity form = ""
  ∧ ∃ r, getNewStockLevel selected form = Num r
         ∧ (selected = None → r = 0)
         ∧ (∀ level, selected = Some level →
                     StockLevel.currentStock level = NaN → r = 0)
         ∧ (∀ level q, selected = Some level →
                       StockLevel.currentStock level = Num q → r == q).
Proof.
  cbn zeta. split; [reflexivity |].
  apply (preview_with_empty_quantity (Some (sampleLevel "vodka" "main-bar" 7))
           (sampleForm add "")).
  reflexivity.
Defined.

(** ** The form's list of recent transactions *)

(** X17.  The form's recent transactions are at most 10, all of the form's
    item, and appear in the order they have in the store's list. *)
Theorem itemTransactions_shape itemId txs :
  (length (itemTransactions itemId txs) ≤ 10)%nat
  ∧ Forall (λ t, InventoryTransaction.itemId t = itemId) (itemTransactions itemId txs)
  ∧ itemTransactions itemId txs `sublist_of` txs.
Proof.
  unfold itemTransactions, slice0. split_and!.
  - rewrite length_take. lia.
  - apply Forall_take, Forall_forall.
    intros t [Ht _]%list_elem_of_filter. by apply String.eqb_eq.
  - etrans; [apply sublist_take | apply sublist_filter].
Qed.

(** X18.  A transaction for the form's item that was just inserted (by
    [addTransaction], a ['transaction'] message or a fulfilled adjustment) is
    the first of the form's recent transactions. *)
Theorem inserted_transaction_shows_first now s op itemId :
  InventoryTransaction.itemId (inserted op) = itemId →
  itemTransactions itemId (transactions (insertion_step now s op)) !! 0%nat
  = Some (inserted op).
Proof.
  intros Hid. rewrite insertion_step_transactions.
  unfold itemTransactions, slice0.
  change (take 100 (inserted op :: transactions s))
    with (inserted op :: take 99 (transactions s)).
  rewrite filter_cons_True; [done |]. by apply String.eqb_eq.
Qed.

Lemma inserted_transaction_shows_first_witness :
  let s := set_transactions [sampleTransaction 0] initialState in
  let op := ByWebSocket (sampleTransaction 1) "t1" in
  InventoryTransaction.itemId (inserted op) = "vodka"
  ∧ itemTransactions "vodka" (transactions (insertion_step "t1" s op)) !! 0%nat
    = Some (inserted op).
Proof.
  cbn zeta. split; [reflexivity |].
  apply (inserted_transaction_shows_first "t1"
           (set_transactions [sampleTransaction 0] initialState)
           (ByWebSocket (sampleTransaction 1) "t1") "vodka").
  reflexivity.
Defined.

(** ** Filters: the panel, the slice and the request *)

Section Filters.
Implicit Types (s : InventoryState) (f : InventoryFilter.t).

Lemma truthy_str_false o :
  JS.truthy_str o = false ↔ o = None ∨ o = Some "".
Proof.
  destruct o as [[| c str] |]; cbn; split; try done; auto.
  - intros [| ]; discriminate.
Qed.
End Filters.

(** X19.  What a select of the panel shows after a choice is the choice
    made: the location, category and status stored by the change handlers
    read back as the chosen values, the empty choice ("All ...") included. *)
Theorem select_shows_the_choice s :
  (∀ value, shownLocation (filters (handleLocationChange s value)) = value)
  ∧ (∀ value, shownCategory (filters (handleCategoryChange s value)) = value)
  ∧ (∀ value, shownStatus (filters (handleStatusChange s value)) = value).
Proof.
  split_and!; intros value; try done; by destruct value.
Qed.

(** X20.  Removing the four filter tags one after the other leaves the
    filters that "Clear All" sets, whatever they were before, and no filter
    is active then. *)
Theorem removing_all_tags_is_clear_all s :
  filters (removeSearchTag (removeStatusTag (removeCategoryTag (removeLocationTag s))))
  = filters (handleClearFilters s)
  ∧ hasActiveFilters (filters (handleClearFilters s)) = false.
Proof. split; reflexivity. Qed.

(** X21.  A change of one filter keeps the other three: after
    [handleLocationChange] the category, status and search term are the
    previous ones, and likewise for the other handlers. *)
Theorem filter_change_keeps_other_filters s value st :
  (let f' := filters (handleLocationChange s value) in
   InventoryFilter.category f' = InventoryFilter.category (filters s)
   ∧ InventoryFilter.status f' = InventoryFilter.status (filters s)
   ∧ InventoryFilter.searchTerm f' = InventoryFilter.searchTerm (filters s))
  ∧ (let f' := filters (handleCategoryChange s value) in
     InventoryFilter.locationId f' = InventoryFilter.locationId (filters s)
     ∧ InventoryFilter.status f' = InventoryFilter.status (filters s)
     ∧ InventoryFilter.searchTerm f' = InventoryFilter.searchTerm (filters s))
  ∧ (let f' := filters (handleStatusChange s st) in
     InventoryFilter.locationId f' = InventoryFilter.locationId (filters s)
     ∧ InventoryFilter.category f' = InventoryFilter.category (filters s)
     ∧ InventoryFilter.searchTerm f' = InventoryFilter.searchTerm (filters s))
  ∧ (let f' := filters (handleSearchChange s value) in
     InventoryFilter.locationId f' = InventoryFilter.locationId (filters s)
     ∧ InventoryFilter.category f' = InventoryFilter.category (filters s)
     ∧ InventoryFilter.status f' = InventoryFilter.status (filters s)).
Proof. by split_and!. Qed.

(** X22.  When the panel shows no active filter, the items request carries
    no parameter at all. *)
Theorem no_active_filter_no_parameter f :
  hasActiveFilters f = false →
  getInventoryItems_params (Some f) = [].
Proof.
  unfold hasActiveFilters. intros H.
  apply orb_false_iff in H as [[[Hl Hc]%orb_false_iff Hst]%orb_false_iff Ht].
  unfold getInventoryItems_params. cbn [mbind option_bind].
  apply truthy_str_false in Hl as [-> | ->], Hc as [-> | ->], Ht as [-> | ->];
    destruct (InventoryFilter.status f) as [[] |]; try discriminate Hst; reflexivity.
Qed.

Lemma no_active_filter_no_parameter_witness :
  let f := InventoryFilter.mk (Some "") None (Some all) None in
  hasActiveFilters f = false ∧ getInventoryItems_params (Some f) = [].
Proof.
  cbn zeta. split; [reflexivity |].
  apply (no_active_filter_no_parameter (InventoryFilter.mk (Some "") None (Some all) None)).
  reflexivity.
Defined.

(** X23.  The items request never sends an empty value and never sends
    [status=all]; its parameters come in the fixed order location_id,
    category, status, search, each at most once. *)
Theorem items_request_parameters filters :
  let params := getInventoryItems_params filters in
  Forall (λ kv, kv.2 ≠ "") params
  ∧ ¬ (("status", "all") ∈ params)
  ∧ (params.*1) `sublist_of` ["location_id"; "category"; "status"; "search"].
Proof.
  cbn zeta. unfold getInventoryItems_params.
  destruct filters as [[l c st t] |]; cbn [mbind option_bind InventoryFilter.locationId
    InventoryFilter.category InventoryFilter.status InventoryFilter.searchTerm].
  2: { split_and!; [constructor | apply not_elem_of_nil | apply sublist_nil_l]. }
  destruct l as [[| c1 l] |], c as [[| c2 c] |], st as [[] |], t as [[| c3 t] |];
    cbn [JS.not_str app FilterStatus_toString];
    (split_and!;
     [ repeat constructor; cbn; discriminate
     | intros Hin; repeat (apply elem_of_cons in Hin as [Hin | Hin]; [discriminate Hin |]);
       by apply elem_of_nil in Hin
     | cbn [fmap list_fmap fst];
       repeat first [ apply sublist_nil_l | apply sublist_skip | apply sublist_cons ] ]).
Qed.

(** ** The overview's statistics *)

Section Overview.
Implicit Types (levels : list StockLevel.t).

Lemma countStatus_cons st level levels :
  countStatus st (level :: levels)
  = ((if decide (StockLevel.status level = st) then 1 else 0)
     + countStatus st levels)%nat.
Proof.
  unfold countStatus. rewrite filter_cons. by case_decide.
Qed.

Lemma countStatus_partition levels :
  (countStatus in_stock levels + countStatus low_stock levels
   + countStatus out_of_stock levels + countStatus overstock levels
   = length levels)%nat.
Proof.
  induction levels as [| level levels IH]; [done |].
  rewrite !countStatus_cons. cbn [length].
  destruct (StockLevel.status level); repeat case_decide; try done; lia.
Qed.

Lemma countStatus_le st levels : (countStatus st levels ≤ length levels)%nat.
Proof. apply length_filter. Qed.

(** [Math.round] of a share of 100 stays a whole number from 0 to 100. *)
Lemma round_share (n total : nat) :
  (0 < total)%nat → (n ≤ total)%nat →
  ∃ z : Z,
    JS.Math_round (JS.mul (JS.div (JS.of_nat n) (JS.of_nat total)) (Num 100))
    = Num (inject_Z z)
    ∧ (0 ≤ z ≤ 100)%Z.
Proof.
  intros Htot Hle. unfold JS.of_nat, JS.div.
  assert (Hpos : 0 < inject_Z (Z.of_nat total)).
  { change 0 with (inject_Z 0). rewrite <- Zlt_Qlt. lia. }
  destruct (Qeq_bool (inject_Z (Z.of_nat total)) 0) eqn:Hz.
  { apply Qeq_bool_iff in Hz. lra. }
  cbn [JS.mul JS.Math_round]. eexists. split; [reflexivity |].
  set (x := inject_Z (Z.of_nat n) / inject_Z (Z.of_nat total) * 100).
  assert (Hn0 : 0 <= inject_Z (Z.of_nat n)).
  { change 0 with (inject_Z 0). rewrite <- Zle_Qle. lia. }
  assert (Hnt : inject_Z (Z.of_nat n) <= inject_Z (Z.of_nat total)).
  { rewrite <- Zle_Qle. lia. }
  assert (Hx : 0 <= x ∧ x <= 100).
  { unfold x. split.
    - apply Qmult_le_0_compat; [| lra].
      apply Qle_shift_div_l; lra.
    - assert (inject_Z (Z.of_nat n) / inject_Z (Z.of_nat total) <= 1).
      { apply Qle_shift_div_r; lra. }
      lra. }
  destruct Hx as [Hx0 Hx100]. split.
  - change 0%Z with (Qfloor 0). apply Qfloor_resp_le. lra.
  - change 100%Z with (Qfloor (201 # 2)). apply Qfloor_resp_le. lra.
Qed.
End Overview.

(** X24.  The four status counts of the overview add up to the total: every
    stock level counted is in stock, low, out of stock or overstocked, and
    in exactly one of these. *)
Theorem stock_stats_partition stockLevels selectedLocationId :
  let stats := getStockStats stockLevels selectedLocationId in
  (StockStats.inStock stats + StockStats.lowStock stats
   + StockStats.outOfStock stats + StockStats.overstock stats
   = StockStats.totalItems stats)%nat
  ∧ (StockStats.totalItems stats ≤ length stockLevels)%nat.
Proof.
  cbn zeta. unfold getStockStats.
  cbn [StockStats.inStock StockStats.lowStock StockStats.outOfStock
         StockStats.overstock StockStats.totalItems].
  split; [apply countStatus_partition |].
  destruct selectedLocationId as [id |]; [| done].
  destruct (JS.not_str id); [done | apply length_filter].
Qed.

(** X25.  The two percentages of the overview are whole numbers from 0 to
    100, and both are 0 when there is nothing to count: the division by the
    total is never made with a total of zero. *)
Theorem stock_stats_percentages stockLevels selectedLocationId :
  let stats := getStockStats stockLevels selectedLocationId in
  (∃ z : Z, StockStats.inStockPercentage stats = Num (inject_Z z) ∧ (0 ≤ z ≤ 100)%Z)
  ∧ (∃ z : Z, StockStats.lowStockPercentage stats = Num (inject_Z z) ∧ (0 ≤ z ≤ 100)%Z)
  ∧ (StockStats.totalItems stats = 0%nat →
     StockStats.inStockPercentage stats = Num 0
     ∧ StockStats.lowStockPercentage stats = Num 0).
Proof.
  cbn zeta. unfold getStockStats.
  cbn [StockStats.inStockPercentage StockStats.lowStockPercentage
         StockStats.totalItems].
  set (filteredLevels := match selectedLocationId with
                         | Some id => _
                         | None => _
                         end).
  destruct (Nat.ltb_spec 0 (length filteredLevels)) as [Hpos | Hzero].
  - split_and!.
    + apply round_share; [done | apply countStatus_le].
    + apply round_share; [done | apply countStatus_le].
    + lia.
  - split_and!; [by exists 0%Z | by exists 0%Z | done].
Qed.

(** ** The item card's stock bar *)

(** X26.  The card's stock percentage never exceeds 100, is 0 when the item
    has no stock level or a par level of zero (no division is made then),
    and is not negative for a non-negative stock and a positive par level. *)
Theorem stock_percentage_bounded stockLevel :
  (stockLevel = None → getStockPercentage stockLevel = Num 0)
  ∧ (∀ level c p,
       stockLevel = Some level →
       StockLevel.currentStock level = Num c →
       StockLevel.parLevel level = Num p →
       ∃ r, getStockPercentage stockLevel = Num r
            ∧ r <= 100
            ∧ (p == 0 → r = 0)
            ∧ (0 <= c → 0 < p → 0 <= r)).
Proof.
  split; [by intros -> |].
  intros level c p -> Hc Hp. unfold getStockPercentage. rewrite Hc, Hp.
  cbn [JS.strict_eq JS.div].
  destruct (Qeq_bool p 0) eqn:Hz.
  - exists 0. split_and!; [done | lra | done | lra].
  - cbn [JS.mul JS.Math_min]. eexists. split_and!; [done | apply Q.le_min_r | |].
    + intros Hp0. apply Qeq_bool_iff in Hp0. congruence.
    + intros Hc0 Hp0. apply Q.min_glb; [| lra].
      apply Qmult_le_0_compat; [| lra]. apply Qle_shift_div_l; lra.
Qed.
